(** * Headlamp front-end: a shallow embedding of the chart legends, the logo
    resolver, the generic table and the dynamic-clusters example plugin.

    Sources embedded here:
    - [frontend/src/components/common/Table/Table.tsx]
    - [frontend/src/components/App/AppLogo.tsx]
    - the circular usage charts ([MemoryCircularChart], [CpuCircularChart])
    - [plugins/examples/dynamic-clusters/src/index.tsx]

    The first part of the file holds the definitions, one module per source
    file; the second part holds the properties. *)

From Stdlib Require Import ZArith Lia PrimFloat.
From Stdlib Require Import Numbers.DecimalString Numbers.DecimalZ.
From stdpp Require Import base option list gmap strings.

Local Open Scope Z_scope.

(* ===================================================================== *)
(** * Part I: definitions                                                  *)
(* ===================================================================== *)

(** ** The fragment of JavaScript the sources rely on *)
Module JS.

(** [a === b] on two numbers is IEEE-754 equality: [-0 === 0] holds and
    [NaN] differs from everything. *)
Definition strict_eq_number (a b : float) : bool := PrimFloat.eqb a b.

(** Truthiness of an optional boolean ([flag?: boolean]). *)
Definition truthy_flag (b : option bool) : bool :=
  match b with Some true => true | _ => false end.

(** Truthiness of an optional string ([string | null]). *)
Definition truthy_string (s : option string) : bool :=
  match s with
  | Some s => negb (String.eqb s "")
  | None => false
  end.

(** Template-literal / [toString] rendering of an integral number. *)
Definition toString (z : Z) : string := NilEmpty.string_of_int (Z.to_int z).

(** [Number(s)] restricted to the strings that spell a decimal integer;
    every other string counts as [NaN], rendered here as [None]. *)
Definition Number (s : string) : option Z :=
  Z.of_int <$> NilEmpty.int_of_string s.

(** [Array.prototype.join]. *)
Fixpoint join (sep : string) (l : list string) : string :=
  match l with
  | [] => ""
  | [x] => x
  | x :: rest => x +:+ sep +:+ join sep rest
  end.

(** [a || b] on optional strings. *)
Definition or_string (a : option string) (b : string) : string :=
  match a with
  | Some s => if String.eqb s "" then b else s
  | None => b
  end.

End JS.

(** ** Circular usage charts *)

(** The two charts close over [noMetrics] (a prop), over the translation
    function [t] of react-i18next and over [formatMetricValueUnit] of
    [lib/units]; the last two are imported and stay parameters. *)

Module MemoryCircularChart.
Section Chart.
Variable formatMetricValueUnit : float -> string -> string -> string.
Variable noMetrics : option bool.

Definition getLegend (used available : float) : string :=
  if JS.strict_eq_number available 0 || JS.strict_eq_number available (-1)
  then ""
  else
    let availableLabel := formatMetricValueUnit available "" "binary" in
    if JS.truthy_flag noMetrics then availableLabel
    else
      let usedLabel := formatMetricValueUnit used "" "binary" in
      usedLabel +:+ " / " +:+ availableLabel.
End Chart.
End MemoryCircularChart.

Module CpuCircularChart.
Section Chart.
Variable formatMetricValueUnit : float -> string -> string -> string.
Variable t : string -> string.
Variable noMetrics : option bool.

Definition getLegend (used available : float) : string :=
  if JS.strict_eq_number available 0 || JS.strict_eq_number available (-1)
  then ""
  else
    let availableLabel :=
      formatMetricValueUnit available "" "" +:+ " " +:+ t "cores" in
    if JS.truthy_flag noMetrics then availableLabel
    else
      let usedLabel := formatMetricValueUnit used "" "cpu" in
      usedLabel +:+ " / " +:+ availableLabel.
End Chart.
End CpuCircularChart.

(** ** Themed logo resolver ([AppLogo.tsx]) *)
Module AppLogo.

(** ['small' | 'large'] *)
Inductive LogoType := small | large.

(** The four SVG assets imported by the file. *)
Inductive LogoAsset := LogoDark | LogoLight | LogoWithTextDark | LogoWithTextLight.

Record AppLogoProps := {
  logoType : option LogoType;
  themeName : option string;
  className : option string;
  sx : option string;
}.

(** [AppLogoType]: a component, a ready-made element, or [null].
    Components and elements are identified by a name. *)
Inductive AppLogoType :=
| LogoNull
| LogoElement (element : string)
| LogoComponent (component : string).

(** What a render returns. *)
Inductive Node :=
| EmptyContent
| ErrorBoundary (child : Node)
| Element (element : string)
| PluginAppLogoComp (component : string) (props : AppLogoProps)
| Svg (asset : LogoAsset) (style : string).

(** The redux store slices the resolver selects, and the two accessors
    of [lib/themes] it calls. *)
Record Env := {
  plugins_loaded : bool;      (* state.plugins.loaded *)
  theme_logo : AppLogoType;   (* state.theme.logo *)
  getThemeName : string;      (* value of getThemeName() *)
  useNavBarMode : string;     (* value of useNavBarMode() *)
}.

Definition is_large (l : option LogoType) : bool :=
  match l with Some large => true | _ => false end.

Definition is_dark (t : option string) : bool :=
  match t with Some s => String.eqb s "dark" | None => false end.

Definition OriginalAppLogo (props : AppLogoProps) : Node :=
  let Component :=
    if is_large (logoType props)
    then (if is_dark (themeName props) then LogoWithTextLight else LogoWithTextDark)
    else (if is_dark (themeName props) then LogoLight else LogoDark) in
  Svg Component "width: auto; height: 32px".

(** [AppLogo]: the ternary on [PluginAppLogoComponent] is the first two
    branches against the last ([null] is the only falsy plugin value), the
    inner ternary on [isValidElement] tells [LogoElement] from
    [LogoComponent]. *)
Definition AppLogo (env : Env) (props : AppLogoProps) : Node :=
  let logoType' := default large (logoType props) in
  let themeName' := default (getThemeName env) (themeName props) in
  let arePluginsLoaded := plugins_loaded env in
  let PluginAppLogoComponent := theme_logo env in
  let mode := useNavBarMode env in
  if negb arePluginsLoaded then EmptyContent
  else
    match PluginAppLogoComponent with
    | LogoElement e => ErrorBoundary (Element e)
    | LogoComponent c =>
        ErrorBoundary
          (PluginAppLogoComp c
             {| logoType := Some logoType'; themeName := Some themeName';
                className := None; sx := Some "height: 32px; width: auto" |})
    | LogoNull =>
        OriginalAppLogo {| logoType := Some logoType'; themeName := Some mode;
                           className := None; sx := None |}
    end.

End AppLogo.

(** ** URL-backed state ([useURLState] of [lib/util]) *)
Module URLState.

(** Modelled from the spec: [useURLState] lives in [lib/util], which is
    not among the sources at hand. The spec describes it as a state cell
    mirrored into a URL query parameter named [<prefix><key>], read as a
    number; an empty key means that nothing is reflected. *)
Definition fullKey (key prefix : string) : string :=
  if String.eqb key "" then "" else prefix +:+ key.

(** Modelled from the spec: the numeric value the URL holds for the
    parameter of [useURLState], if it holds one. *)
Definition getURLValue (search : gmap string string) (key prefix : string)
  : option Z :=
  if String.eqb key "" then None
  else search !! fullKey key prefix ≫= JS.Number.

(** Modelled from the spec: the state cell of [useURLState] starts from
    the URL value when there is one and from [defaultValue] otherwise. *)
Definition initialValue (search : gmap string string) (key prefix : string)
    (defaultValue : Z) : Z :=
  default defaultValue (getURLValue search key prefix).

(** Modelled from the spec: the effect of [useURLState] that watches the
    URL; it writes the state only when the URL value differs from it. *)
Definition pull (search : gmap string string) (key prefix : string)
    (value : Z) : option Z :=
  match getURLValue search key prefix with
  | Some n => if decide (n ≠ value) then Some n else None
  | None => None
  end.

(** Modelled from the spec: the effect of [useURLState] that pushes the
    state to the URL after the state changed. *)
Definition push (key prefix : string) (value : Z)
    (search : gmap string string) : gmap string string :=
  if String.eqb key "" then search
  else <[fullKey key prefix := JS.toString value]> search.

End URLState.

(** ** Generic data table ([Table.tsx]) *)
Module Table.

(** [ReactNode], as far as its truthiness and text go. *)
Inductive ReactNode :=
| RUndefined
| RNull
| RBoolean (b : bool)
| RText (s : string)
| RNumber (n : Z)
| RElement (tag : string).

Definition truthy_node (n : ReactNode) : bool :=
  match n with
  | RUndefined | RNull => false
  | RBoolean b => b
  | RText s => negb (String.eqb s "")
  | RNumber n => negb (n =? 0)
  | RElement _ => true
  end.

(** [reflectInURL?: string | boolean] *)
Inductive ReflectInURL :=
| ReflectUndefined
| ReflectBool (b : bool)
| ReflectPrefix (s : string).

(** [enableRowSelection?: boolean | ((row) => boolean)] *)
Inductive RowSelection :=
| SelectionUndefined
| SelectionBool (b : bool)
| SelectionPredicate.

Definition truthy_selection (s : RowSelection) : bool :=
  match s with
  | SelectionUndefined => false
  | SelectionBool b => b
  | SelectionPredicate => true
  end.

(** [{ pageIndex, pageSize }] of the grid engine. *)
Record Pagination := { pageIndex : Z; pageSize : Z }.

(** *** State and effects of the pagination hooks *)

(** Calls of the three state setters. [setZeroIndexPage] is the setter
    that [usePageURLState] hands out; it also takes an updater function. *)
Inductive Update :=
| SetPage (v : Z)
| SetZeroIndexPage (f : Z -> Z)
| SetPageSize (v : Z).

(** The dependency values that the effects compared at the last render. *)
Record Deps := {
  dep_urlPage : option string;
  dep_page : Z;
  dep_zeroIndexPage : Z;
  dep_urlPerPage : option string;
  dep_pageSize : Z;
}.

(** The URL query string and the three state cells of a mounted table;
    [seen] is [None] until the first render has been committed. *)
Record Hooks := {
  search : gmap string string;
  page : Z;             (* [page] of [useURLState] inside [usePageURLState] *)
  zeroIndexPage : Z;    (* [zeroIndexPage] of [usePageURLState] *)
  perPage : Z;          (* [pageSize] of the table *)
  seen : option Deps;
}.

Definition apply_update (h : Hooks) (u : Update) : Hooks :=
  match u with
  | SetPage v =>
      {| search := search h; page := v; zeroIndexPage := zeroIndexPage h;
         perPage := perPage h; seen := seen h |}
  | SetZeroIndexPage f =>
      {| search := search h; page := page h;
         zeroIndexPage := f (zeroIndexPage h);
         perPage := perPage h; seen := seen h |}
  | SetPageSize v =>
      {| search := search h; page := page h; zeroIndexPage := zeroIndexPage h;
         perPage := v; seen := seen h |}
  end.

(** The queued setter calls are processed in order at the next render. *)
Definition dispatch (us : list Update) (h : Hooks) : Hooks :=
  foldl apply_update h us.

(** What the effects of one commit have done so far: the URL as they
    left it and the setter calls they queued. *)
Definition Commit : Type := gmap string string * list Update.

Definition enqueue (u : Update) (c : Commit) : Commit := (c.1, c.2 ++ [u]).

(** An effect runs after the first render and after every render in
    which one of its dependencies differs from the previous render. *)
Definition changed {A} `{EqDecision A} (dep : Deps -> A)
    (prev : option Deps) (now : Deps) : bool :=
  match prev with
  | None => true
  | Some d => bool_decide (dep d ≠ dep now)
  end.

(** Modelled from the spec: the two effects of one [useURLState] call, in
    the order the spec lists them: the one watching the URL, then the one
    pushing the state to the URL. *)
Definition useURLState_effects (key prefix : string)
    (url_changed value_changed : bool) (value : Z) (setValue : Z -> Update)
    (c : Commit) : Commit :=
  let c1 :=
    if url_changed then
      match URLState.pull c.1 key prefix value with
      | Some n => enqueue (setValue n) c
      | None => c
      end
    else c in
  if value_changed then (URLState.push key prefix value c1.1, c1.2) else c1.

(** [usePageURLState]: the effects of its [useURLState] call, then the
    effect on [[page]], then the effect on [[zeroIndexPage]]. *)
Definition usePageURLState_effects (key prefix : string)
    (url_changed page_changed zero_changed : bool)
    (page zeroIndexPage : Z) (c : Commit) : Commit :=
  let c1 :=
    useURLState_effects key prefix url_changed page_changed page SetPage c in
  let c2 :=
    if page_changed then
      enqueue (SetZeroIndexPage
                 (fun zeroIndexPage =>
                    if decide (page - 1 ≠ zeroIndexPage) then page - 1
                    else zeroIndexPage)) c1
    else c1 in
  if zero_changed then enqueue (SetPage (zeroIndexPage + 1)) c2 else c2.

(** [usePageURLState]: initial values of its two state cells. *)
Definition usePageURLState_init (search : gmap string string)
    (key prefix : string) (initialPage : Z) : Z * Z :=
  let page := URLState.initialValue search key prefix (initialPage + 1) in
  (page, page - 1).

(** The keys under which a table reflects its pagination. *)
Record Keys := { key_p : string; key_perPage : string; prefix : string }.

Definition keys_of (reflectInURL : ReflectInURL) : Keys :=
  let shouldReflectInURL :=
    match reflectInURL with
    | ReflectUndefined | ReflectBool false => false
    | _ => true
    end in
  let prefix :=
    match reflectInURL with
    | ReflectPrefix s => s
    | _ => ""
    end in
  {| key_p := if shouldReflectInURL then "p" else "";
     key_perPage := if shouldReflectInURL then "perPage" else "";
     prefix := prefix |}.

Definition deps_of (k : Keys) (h : Hooks) : Deps :=
  {| dep_urlPage := search h !! URLState.fullKey (key_p k) (prefix k);
     dep_page := page h;
     dep_zeroIndexPage := zeroIndexPage h;
     dep_urlPerPage := search h !! URLState.fullKey (key_perPage k) (prefix k);
     dep_pageSize := perPage h |}.

(** One render of the table followed by its effects: the effects see the
    state of this render, run in the order of the hook calls, and the
    setter calls they queue are processed for the next render. *)
Definition commit (k : Keys) (h : Hooks) : Hooks :=
  let now := deps_of k h in
  let c0 : Commit := (search h, []) in
  let c1 :=
    usePageURLState_effects (key_p k) (prefix k)
      (changed dep_urlPage (seen h) now)
      (changed dep_page (seen h) now)
      (changed dep_zeroIndexPage (seen h) now)
      (page h) (zeroIndexPage h) c0 in
  let c2 :=
    useURLState_effects (key_perPage k) (prefix k)
      (changed dep_urlPerPage (seen h) now)
      (changed dep_pageSize (seen h) now)
      (perPage h) SetPageSize c1 in
  dispatch c2.2
    {| search := c2.1; page := page h; zeroIndexPage := zeroIndexPage h;
       perPage := perPage h; seen := Some now |}.

(** [n] renders in a row. *)
Definition renders (k : Keys) (n : nat) (h : Hooks) : Hooks :=
  Nat.iter n (commit k) h.

(** A state that one more render leaves as it is. *)
Definition settled (k : Keys) (h : Hooks) : Prop := commit k h = h.

(** The URL is changed from outside the component. *)
Definition navigate (param value : string) (h : Hooks) : Hooks :=
  {| search := <[param := value]> (search h); page := page h;
     zeroIndexPage := zeroIndexPage h; perPage := perPage h;
     seen := seen h |}.

(** The page parameter of the URL, for a table reflecting under [k]. *)
Definition url_page (k : Keys) (h : Hooks) : option string :=
  search h !! URLState.fullKey (key_p k) (prefix k).

Definition url_perPage (k : Keys) (h : Hooks) : option string :=
  search h !! URLState.fullKey (key_perPage k) (prefix k).

(** The relation between the two sides that the hooks of
    [usePageURLState] are to restore: the internal index is one less than
    the page that the state cell and the URL parameter hold. *)
Definition consistent (k : Keys) (h : Hooks) : Prop :=
  zeroIndexPage h = page h - 1 /\ url_page k h ≫= JS.Number = Some (page h).

(** *** The component *)
Section Component.
(** The table is generic in its rows. [Num] stands for the numbers a
    width hint may hold and [Num_toString] for the way a template
    literal prints them. *)
Context {RowItem Num : Type}.
Variable Num_toString : Num -> string.

(** [gridTemplate?: string | number] *)
Inductive GridTemplate :=
| GridNumber (n : Num)
| GridString (s : string).

Record TableColumn := {
  id : option string;
  header : option string;
  gridTemplate : option GridTemplate;
}.

(** The props the component reads. [columnVisibility] is
    [state?.columnVisibility], absent when either level is. *)
Record TableProps := {
  columns : list TableColumn;
  data : option (list RowItem);
  emptyMessage : ReactNode;
  errorMessage : ReactNode;
  reflectInURL : ReflectInURL;
  initialPage : option Z;
  rowsPerPage : option (list Z);
  filterFunction : option (RowItem -> bool);
  loading : option bool;
  enableRowActions : option bool;
  enableRowSelection : RowSelection;
  columnVisibility : option (gmap string bool);
}.

(** What the component takes from its surroundings: the stored page-size
    options ([useSettings]), [helpers.getTablesRowsPerPage] and the
    translation function. *)
Record Env := {
  storeRowsPerPageOptions : list Z;
  getTablesRowsPerPage : option Z -> Z;
  t : string -> string;
}.

Variable props : TableProps.
Variable env : Env.

(** [rowsPerPage || storeRowsPerPageOptions]: an array is truthy even
    when it is empty. *)
Definition rowsPerPageOptions : list Z :=
  default (storeRowsPerPageOptions env) (rowsPerPage props).

Definition defaultRowsPerPage : Z :=
  getTablesRowsPerPage env (head rowsPerPageOptions).

(** The state of the hooks before the first render. *)
Definition mount (search0 : gmap string string) : Hooks :=
  let k := keys_of (reflectInURL props) in
  let pz :=
    usePageURLState_init search0 (key_p k) (prefix k)
      (default 1 (initialPage props)) in
  {| search := search0;
     page := pz.1;
     zeroIndexPage := pz.2;
     perPage :=
       URLState.initialValue search0 (key_perPage k) (prefix k)
         defaultRowsPerPage;
     seen := None |}.

Definition tableColumns : list TableColumn :=
  imap (fun i column =>
          {| id := Some (default (JS.toString (Z.of_nat i)) (id column));
             header := Some (JS.or_string (header column) "");
             gridTemplate := gridTemplate column |})
       (columns props).

Definition tableData : list RowItem :=
  match filterFunction props with
  | None => default [] (data props)
  | Some f => List.filter f (default [] (data props))
  end.

(** [state?.columnVisibility?.[it.id!] === false]; an absent [id] is
    looked up under the property name ["undefined"]. *)
Definition isHidden (it : TableColumn) : bool :=
  match columnVisibility props with
  | Some visibility =>
      match visibility !! default "undefined" (id it) with
      | Some false => true
      | _ => false
      end
  | None => false
  end.

Definition track (it : TableColumn) : string :=
  match gridTemplate it with
  | Some (GridNumber n) => Num_toString n +:+ "fr"
  | Some (GridString s) => s
  | None => "1fr"
  end.

Definition gridTemplateColumns : string :=
  let preGridTemplateColumns :=
    JS.join " "
      (map track (List.filter (fun it => negb (isHidden it)) (columns props))) in
  let preGridTemplateColumns :=
    if JS.truthy_flag (enableRowActions props)
    then preGridTemplateColumns +:+ " 0.05fr"
    else preGridTemplateColumns in
  let preGridTemplateColumns :=
    if truthy_selection (enableRowSelection props)
    then "0.05fr " +:+ preGridTemplateColumns
    else preGridTemplateColumns in
  preGridTemplateColumns.

(** [tableData.length > rowsPerPageOptions[0]]; the comparison with
    [undefined] is false. *)
Definition enablePagination : bool :=
  match head rowsPerPageOptions with
  | Some first => first <? Z.of_nat (length tableData)
  | None => false
  end.

(** [!tableProps.data?.length] *)
Definition data_is_empty : bool :=
  match data props with
  | Some (_ :: _) => false
  | _ => true
  end.

(** The handler handed to the grid engine. [page] and [setPage] of the
    component are what [usePageURLState] returns, that is
    [zeroIndexPage] and its setter. The result lists the setter calls. *)
Definition onPaginationChange (h : Hooks)
    (updater : Pagination -> Pagination) : list Update :=
  if data_is_empty then []
  else
    let pagination :=
      updater {| pageIndex := zeroIndexPage h - 1; pageSize := perPage h |} in
    [SetZeroIndexPage (fun _ => pageIndex pagination + 1);
     SetPageSize (pageSize pagination)].

(** The options handed to the grid engine that the properties below
    talk about. *)
Record GridOptions := {
  grid_columns : list TableColumn;
  grid_data : list RowItem;
  grid_enablePagination : bool;
  grid_pagination : Pagination;
  grid_rowsPerPageOptions : list Z;
}.

(** What the component returns. *)
Inductive View :=
| ErrorView (message : ReactNode)      (* <Empty color="error"> *)
| LoaderView (title : string)          (* <Loader> *)
| EmptyView (message : ReactNode)      (* <Paper><Empty> *)
| GridView (options : GridOptions) (gridTemplateColumns : string).

Definition Table (h : Hooks) : View :=
  let table :=
    {| grid_columns := tableColumns;
       grid_data := tableData;
       grid_enablePagination := enablePagination;
       grid_pagination :=
         {| pageIndex := zeroIndexPage h - 1; pageSize := perPage h |};
       grid_rowsPerPageOptions := rowsPerPageOptions |} in
  if truthy_node (errorMessage props) then ErrorView (errorMessage props)
  else if JS.truthy_flag (loading props)
  then LoaderView (t env "Loading table data")
  else if data_is_empty && negb (JS.truthy_flag (loading props))
  then EmptyView
         (if truthy_node (emptyMessage props) then emptyMessage props
          else RText (t env "No data to be shown."))
  else GridView table gridTemplateColumns.

(** Following the spec's words: the visible columns, and the tracks of
    the grid in their order: the fixed track of the selection column, one
    track per visible column, the fixed track of the actions column. *)
Definition visible_columns : list TableColumn :=
  List.filter (fun it => negb (isHidden it)) (columns props).

Definition grid_tracks : list string :=
  (if truthy_selection (enableRowSelection props) then ["0.05fr"] else [])
  ++ map track visible_columns
  ++ (if JS.truthy_flag (enableRowActions props) then ["0.05fr"] else []).

End Component.

(** Following the spec's words: the smallest of the configured page-size
    options, when there is one. *)
Fixpoint smallest (options : list Z) : option Z :=
  match options with
  | [] => None
  | o :: rest =>
      match smallest rest with
      | Some m => Some (Z.min o m)
      | None => Some o
      end
  end.

(** *** Inputs of the examples *)

(** A table over rows of type [unit] with numeric hints in [Z]: the given
    columns and rows, nothing else set. *)
Definition plain_table (columns : list (@TableColumn Z))
    (rows : option (list unit)) : @TableProps unit Z :=
  {| columns := columns; data := rows;
     emptyMessage := RUndefined; errorMessage := RUndefined;
     reflectInURL := ReflectUndefined; initialPage := None;
     rowsPerPage := None; filterFunction := None; loading := None;
     enableRowActions := None; enableRowSelection := SelectionUndefined;
     columnVisibility := None |}.

Definition hinted (hint : option (@GridTemplate Z)) : @TableColumn Z :=
  {| id := None; header := None; gridTemplate := hint |}.

(** Columns with the width hints [1], ["2fr"] and ["min-content"], row
    selection enabled. *)
Definition layout_example : @TableProps unit Z :=
  {| columns := [hinted (Some (GridNumber 1));
                 hinted (Some (GridString "2fr"));
                 hinted (Some (GridString "min-content"))];
     data := Some [tt];
     emptyMessage := RUndefined; errorMessage := RUndefined;
     reflectInURL := ReflectUndefined; initialPage := None;
     rowsPerPage := None; filterFunction := None; loading := None;
     enableRowActions := None; enableRowSelection := SelectionBool true;
     columnVisibility := None |}.

(** Twenty rows under the page-size options [[50; 15]]. *)
Definition unsorted_options_example : @TableProps unit Z :=
  {| columns := []; data := Some (replicate 20 tt);
     emptyMessage := RUndefined; errorMessage := RUndefined;
     reflectInURL := ReflectUndefined; initialPage := None;
     rowsPerPage := Some [50; 15]; filterFunction := None; loading := None;
     enableRowActions := None; enableRowSelection := SelectionUndefined;
     columnVisibility := None |}.

(** A table reflecting its pagination in the URL under the prefix ["x"]. *)
Definition reflecting_example : @TableProps unit Z :=
  {| columns := []; data := Some [tt];
     emptyMessage := RUndefined; errorMessage := RUndefined;
     reflectInURL := ReflectPrefix "x"; initialPage := None;
     rowsPerPage := None; filterFunction := None; loading := None;
     enableRowActions := None; enableRowSelection := SelectionUndefined;
     columnVisibility := None |}.

Definition plain_env : Env :=
  {| storeRowsPerPageOptions := [15; 25; 50];
     getTablesRowsPerPage := default 15;
     t := fun text => text |}.

(** *** The rest of the component *)

(** [state.pagination] as the component hands it to the grid engine:
    [pageIndex: page - 1], where [page] is what [usePageURLState]
    returned. *)
Definition state_pagination (h : Hooks) : Pagination :=
  {| pageIndex := zeroIndexPage h - 1; pageSize := perPage h |}.

(** The same props with another [filterFunction]. *)
Definition with_filterFunction {RowItem Num : Type}
    (f : option (RowItem -> bool)) (props : @TableProps RowItem Num)
  : @TableProps RowItem Num :=
  {| columns := columns props; data := data props;
     emptyMessage := emptyMessage props; errorMessage := errorMessage props;
     reflectInURL := reflectInURL props; initialPage := initialPage props;
     rowsPerPage := rowsPerPage props; filterFunction := f;
     loading := loading props; enableRowActions := enableRowActions props;
     enableRowSelection := enableRowSelection props;
     columnVisibility := columnVisibility props |}.

(** The props of [MemoHeadCell] that its comparison reads: the id of the
    header's column, [sorting] ([string | false], [None] for [false]),
    [isFiltered], [selected] and [showColumnFilters]. *)
Record HeadCellProps := {
  head_column_id : string;
  head_sorting : option string;
  head_isFiltered : bool;
  head_selected : string;
  head_showColumnFilters : bool;
}.

(** [a.sorting === b.sorting] *)
Definition sorting_eqb (a b : option string) : bool :=
  match a, b with
  | Some x, Some y => String.eqb x y
  | None, None => true
  | _, _ => false
  end.

(** The second argument of [memo] for [MemoHeadCell]: [true] keeps the
    rendered cell. *)
Definition MemoHeadCell_propsAreEqual (a b : HeadCellProps) : bool :=
  String.eqb (head_column_id a) (head_column_id b)
  && sorting_eqb (head_sorting a) (head_sorting b)
  && Bool.eqb (head_isFiltered a) (head_isFiltered b)
  && Bool.eqb (head_showColumnFilters a) (head_showColumnFilters b)
  && (if String.eqb (head_column_id a) "mrt-row-select"
      then String.eqb (head_selected a) (head_selected b)
      else true).

(** The [selected] prop the component computes for every head cell. *)
Definition selected_of (isAllRowsSelected isSomeRowsSelected : bool) : string :=
  if isAllRowsSelected then "all"
  else if isSomeRowsSelected then "some"
  else "none".

(** What [cell.getValue()] may return, as far as [===] tells values apart:
    primitives are compared by value, objects (arrays and rendered
    elements included) by identity, here a reference. *)
Inductive CellValue :=
| VUndefined
| VNull
| VBoolean (b : bool)
| VNumber (n : float)
| VString (s : string)
| VObject (ref : positive).

(** [a === b] *)
Definition strict_eq (a b : CellValue) : bool :=
  match a, b with
  | VUndefined, VUndefined => true
  | VNull, VNull => true
  | VBoolean x, VBoolean y => Bool.eqb x y
  | VNumber x, VNumber y => JS.strict_eq_number x y
  | VString x, VString y => String.eqb x y
  | VObject x, VObject y => Pos.eqb x y
  | _, _ => false
  end.

(** The props of [MemoCell] that its comparison reads: the value of the
    cell, the id of its column and [isRowSelected]. *)
Record CellProps := {
  cell_value : CellValue;
  cell_column_id : string;
  cell_isRowSelected : bool;
}.

(** The second argument of [memo] for [MemoCell]: [true] keeps the
    rendered cell. *)
Definition MemoCell_propsAreEqual (a b : CellProps) : bool :=
  strict_eq (cell_value a) (cell_value b)
  && (if String.eqb (cell_column_id a) "mrt-row-select"
         && String.eqb (cell_column_id b) "mrt-row-select"
      then Bool.eqb (cell_isRowSelected a) (cell_isRowSelected b)
      else true).

End Table.

(** ** Example plugin: cluster registration ([dynamic-clusters/src/index.tsx]) *)
Module DynamicClusters.

(** A call that either returns or throws an [Error] with a message. *)
Inductive Result (A : Type) :=
| Return (a : A)
| Throw (message : string).
Arguments Return {A} a.
Arguments Throw {A} message.

(** Sequencing: a [Throw] skips the rest of the [try] block. *)
#[export] Instance Result_bind : MBind Result := fun A B f r =>
  match r with
  | Return a => f a
  | Throw m => Throw m
  end.

(** What [yaml.load] may return. *)
#[local] Set Warnings "-register-all".
Inductive JsValue :=
| JUndefined
| JNull
| JBoolean (b : bool)
| JNumber (n : float)
| JString (s : string)
| JArray (items : list JsValue)
| JObject (fields : list (string * JsValue)).

Definition truthy (v : JsValue) : bool :=
  match v with
  | JUndefined | JNull => false
  | JBoolean b => b
  | JNumber n => negb (PrimFloat.eqb n 0 || PrimFloat.is_nan n)
  | JString s => negb (String.eqb s "")
  | JArray _ | JObject _ => true
  end.

Fixpoint assoc (name : string) (fields : list (string * JsValue))
  : option JsValue :=
  match fields with
  | [] => None
  | (k, v) :: rest => if String.eqb k name then Some v else assoc name rest
  end.

(** [v.name] for a property [name] that no prototype defines (as
    [apiVersion] and [kind]): reading it throws on [null] and [undefined],
    gives the field of an object and [undefined] on everything else. *)
Definition get (v : JsValue) (name : string) : Result JsValue :=
  match v with
  | JUndefined | JNull =>
      Throw ("Cannot read properties of null or undefined (reading '" +:+ name +:+ "')")
  | JObject fields => Return (default JUndefined (assoc name fields))
  | _ => Return JUndefined
  end.

(** [v === 'text'] *)
Definition strict_eq_string (v : JsValue) (text : string) : bool :=
  match v with
  | JString s => String.eqb s text
  | _ => false
  end.

(** The argument of [Headlamp.setCluster]. *)
Inductive ClusterRequest :=
| ByKubeconfig (kubeconfig : string)
| ByNameAndServer (name server : string).

(** Calls into the host. *)
Inductive HostCall :=
| SetCluster (request : ClusterRequest)
| Reload.

(** The state cells of [ClusterCreationButton]. *)
Record State := {
  open : bool;
  kubeconfig : string;
  name : string;
  server : string;
  isDynamicClusterEnabled : bool;
  error : option string;
}.

Definition setError (e : option string) (st : State) : State :=
  {| open := open st; kubeconfig := kubeconfig st; name := name st;
     server := server st;
     isDynamicClusterEnabled := isDynamicClusterEnabled st; error := e |}.

Definition handleClose (st : State) : State :=
  {| open := false; kubeconfig := kubeconfig st; name := name st;
     server := server st;
     isDynamicClusterEnabled := isDynamicClusterEnabled st;
     error := error st |}.

(** Following the spec's words: the field of a parsed document, and a
    document carrying the two marker fields [apiVersion: v1] and
    [kind: Config]. *)
Definition field (document : JsValue) (name : string) : option JsValue :=
  match document with
  | JObject fields => assoc name fields
  | _ => None
  end.

Definition has_marker_fields (document : JsValue) : Prop :=
  field document "apiVersion" = Some (JString "v1")
  /\ field document "kind" = Some (JString "Config").

Section Submit.
(** [atob] of the browser and [yaml.load] of js-yaml. *)
Variable atob : string -> Result string.
Variable yaml_load : string -> Result JsValue.

(** The body of the [try] block of [isValidKubeconfig]. *)
Definition isValidKubeconfig_try (base64Kubeconfig : string)
  : Result (option string) :=
  kubeconfig ← atob base64Kubeconfig;
  kubeconfigObject ← yaml_load kubeconfig;
  if truthy kubeconfigObject then
    apiVersion ← get kubeconfigObject "apiVersion";
    if strict_eq_string apiVersion "v1" then
      kind ← get kubeconfigObject "kind";
      if strict_eq_string kind "Config" then Return None
      else Return (Some "Invalid kubeconfig format: Missing required fields")
    else Return (Some "Invalid kubeconfig format: Missing required fields")
  else Return (Some "Invalid kubeconfig format: Missing required fields").

Definition isValidKubeconfig (base64Kubeconfig : string) : option string :=
  match isValidKubeconfig_try base64Kubeconfig with
  | Return r => r
  | Throw message =>
      Some ("Error decoding/parsing kubeconfig: " +:+ message)
  end.

(** [handleSubmit]: the state after the handler has run and the host
    calls it made; the promise callbacks run later, see
    [setCluster_settled]. *)
Definition handleSubmit (st : State) : State * list HostCall :=
  let st := setError None st in
  if isDynamicClusterEnabled st then
    let validationError := isValidKubeconfig (kubeconfig st) in
    if JS.truthy_string validationError
    then (setError validationError st, [])
    else (handleClose st, [SetCluster (ByKubeconfig (kubeconfig st))])
  else
    (handleClose st, [SetCluster (ByNameAndServer (name st) (server st))]).

(** The [then] and [catch] callbacks of the promise of [setCluster];
    [outcome] is [None] when it resolved and the message of the
    rejection otherwise. *)
Definition setCluster_settled (request : ClusterRequest)
    (outcome : option string) (st : State) : State * list HostCall :=
  match outcome with
  | None => (st, [Reload])
  | Some message =>
      match request with
      | ByKubeconfig _ =>
          (setError
             (Some ("Error setting cluster. Please check the provided kubeconfig: "
                    +:+ message)) st, [])
      | ByNameAndServer _ _ =>
          (setError
             (Some ("Error setting cluster. Please check the provided name and server: "
                    +:+ message)) st, [])
      end
  end.
End Submit.

(** *** The rest of [ClusterCreationButton] *)

(** The initial values of the state cells. *)
Definition initial : State :=
  {| open := false; kubeconfig := ""; name := ""; server := "";
     isDynamicClusterEnabled := false; error := None |}.

Definition handleOpen (st : State) : State :=
  {| open := true; kubeconfig := kubeconfig st; name := name st;
     server := server st;
     isDynamicClusterEnabled := isDynamicClusterEnabled st;
     error := error st |}.

(** The mount effect once the promise of [request('/config')] settled:
    [Some flag] when it resolved with [isDynamicClusterEnabled: flag],
    [None] when it was rejected (the error is only logged). *)
Definition config_settled (response : option bool) (st : State) : State :=
  match response with
  | Some flag =>
      {| open := open st; kubeconfig := kubeconfig st; name := name st;
         server := server st; isDynamicClusterEnabled := flag;
         error := error st |}
  | None => st
  end.

(** What the component returns, as far as the state shows in it: whether
    the modal is open, the line about stateless clusters, the text fields
    with label and value, and the error line inside the modal. *)
Record View := {
  modal_open : bool;
  stateless_line : string;
  text_fields : list (string * string);
  error_line : option string;
}.

Definition render (st : State) : View :=
  {| modal_open := open st;
     stateless_line :=
       "Stateless clusters enabled: "
       +:+ (if isDynamicClusterEnabled st then "true" else "false");
     text_fields :=
       if isDynamicClusterEnabled st
       then [("Please paste base64 encoded Kubeconfig", kubeconfig st)]
       else [("Name", name st); ("Server", server st)];
     error_line :=
       if JS.truthy_string (error st) then error st else None |}.

(** The [onChange] handlers of the three text fields. *)
Definition setKubeconfig (text : string) (st : State) : State :=
  {| open := open st; kubeconfig := text; name := name st;
     server := server st;
     isDynamicClusterEnabled := isDynamicClusterEnabled st;
     error := error st |}.

Definition setName (text : string) (st : State) : State :=
  {| open := open st; kubeconfig := kubeconfig st; name := text;
     server := server st;
     isDynamicClusterEnabled := isDynamicClusterEnabled st;
     error := error st |}.

Definition setServer (text : string) (st : State) : State :=
  {| open := open st; kubeconfig := kubeconfig st; name := name st;
     server := text;
     isDynamicClusterEnabled := isDynamicClusterEnabled st;
     error := error st |}.

(** What can happen to the mounted component: the promise of
    [request('/config')] settles, the button or the modal is used, a text
    field changes, the form is submitted, a promise of [setCluster]
    settles. *)
Inductive Event :=
| ConfigSettled (response : option bool)
| ClickNewCluster
| CloseModal
| ChangeKubeconfig (text : string)
| ChangeName (text : string)
| ChangeServer (text : string)
| ClickSubmit
| SetClusterSettled (request : ClusterRequest) (outcome : option string).

Section Run.
Variable atob : string -> Result string.
Variable yaml_load : string -> Result JsValue.

(** The handler or callback that an event runs. *)
Definition step (e : Event) (st : State) : State * list HostCall :=
  match e with
  | ConfigSettled response => (config_settled response st, [])
  | ClickNewCluster => (handleOpen st, [])
  | CloseModal => (handleClose st, [])
  | ChangeKubeconfig text => (setKubeconfig text st, [])
  | ChangeName text => (setName text st, [])
  | ChangeServer text => (setServer text st, [])
  | ClickSubmit => handleSubmit atob yaml_load st
  | SetClusterSettled request outcome => setCluster_settled request outcome st
  end.

(** A sequence of events, each handled on the state the one before left;
    the host calls are collected in order. *)
Fixpoint run (events : list Event) (st : State) : State * list HostCall :=
  match events with
  | [] => (st, [])
  | e :: rest =>
      let after := step e st in
      let later := run rest after.1 in
      (later.1, after.2 ++ later.2)
  end.
End Run.

End DynamicClusters.

(* ===================================================================== *)
(** * Part II: properties                                                  *)
(* ===================================================================== *)

(** ** Chart legends *)
Lemma sentinel_guard (available : float) :
  JS.strict_eq_number available 0 = true \/
  JS.strict_eq_number available (-1) = true ->
  JS.strict_eq_number available 0 || JS.strict_eq_number available (-1) = true.
Proof. intros [-> | ->]; [reflexivity | apply orb_true_r]. Qed.

Lemma no_sentinel_guard (available : float) :
  JS.strict_eq_number available 0 = false ->
  JS.strict_eq_number available (-1) = false ->
  JS.strict_eq_number available 0 || JS.strict_eq_number available (-1) = false.
Proof. intros -> ->; reflexivity. Qed.
(** C5. When the available capacity is [0] or [-1] (in the sense of [===]),
    the legend of the memory chart and the legend of the CPU chart are both
    the empty string, whatever the used value, the [noMetrics] flag, the
    formatter and the translations are. *)
Theorem getLegend_sentinel_empty
    (formatMetricValueUnit : float -> string -> string -> string)
    (t : string -> string) (noMetrics : option bool) (used available : float) :
  JS.strict_eq_number available 0 = true \/
  JS.strict_eq_number available (-1) = true ->
  MemoryCircularChart.getLegend formatMetricValueUnit noMetrics used available = ""
  /\ CpuCircularChart.getLegend formatMetricValueUnit t noMetrics used available = "".
Proof.
  intros Hsentinel.
  unfold MemoryCircularChart.getLegend, CpuCircularChart.getLegend.
  rewrite (sentinel_guard available Hsentinel).
  split; reflexivity.
Qed.

Lemma getLegend_sentinel_empty_witness :
  MemoryCircularChart.getLegend (fun _ _ unit => unit) None 512 (-1) = ""
  /\ CpuCircularChart.getLegend (fun _ _ unit => unit) (fun s => s) None 512 (-1) = "".
Proof.
  apply (getLegend_sentinel_empty (fun _ _ unit => unit) (fun s => s) None 512 (-1)).
  right. reflexivity.
Defined.

(** C6. When the available capacity is neither [0] nor [-1], the legend is
    ["<used> / <available>"] when metrics are present and ["<available>"]
    alone when [noMetrics] is set. For the memory chart both labels are
    formatted in the binary family; for the CPU chart the available label
    is the formatted value followed by a space and the translation of
    ["cores"], in particular when metrics are absent. *)
Theorem getLegend_labels
    (formatMetricValueUnit : float -> string -> string -> string)
    (t : string -> string) (used available : float) :
  JS.strict_eq_number available 0 = false ->
  JS.strict_eq_number available (-1) = false ->
  let memoryAvailable := formatMetricValueUnit available "" "binary" in
  let memoryUsed := formatMetricValueUnit used "" "binary" in
  let cpuAvailable := formatMetricValueUnit available "" "" +:+ " " +:+ t "cores" in
  let cpuUsed := formatMetricValueUnit used "" "cpu" in
  (forall noMetrics, JS.truthy_flag noMetrics = true ->
     MemoryCircularChart.getLegend formatMetricValueUnit noMetrics used available
       = memoryAvailable
     /\ CpuCircularChart.getLegend formatMetricValueUnit t noMetrics used available
       = cpuAvailable)
  /\ (forall noMetrics, JS.truthy_flag noMetrics = false ->
     MemoryCircularChart.getLegend formatMetricValueUnit noMetrics used available
       = memoryUsed +:+ " / " +:+ memoryAvailable
     /\ CpuCircularChart.getLegend formatMetricValueUnit t noMetrics used available
       = cpuUsed +:+ " / " +:+ cpuAvailable).
Proof.
  intros Hzero Hminus; cbv zeta.
  unfold MemoryCircularChart.getLegend, CpuCircularChart.getLegend.
  rewrite (no_sentinel_guard available Hzero Hminus).
  split; intros noMetrics ->; split; reflexivity.
Qed.

Lemma getLegend_labels_witness :
  let fmt := fun (_ : float) (_ unit : string) => "<" +:+ unit +:+ ">" in
  MemoryCircularChart.getLegend fmt (Some true) 1 4 = "<binary>"
  /\ CpuCircularChart.getLegend fmt (fun s => s) (Some true) 1 4 = "<> cores"
  /\ MemoryCircularChart.getLegend fmt None 1 4 = "<binary> / <binary>"
  /\ CpuCircularChart.getLegend fmt (fun s => s) None 1 4 = "<cpu> / <> cores".
Proof.
  intros fmt.
  destruct (getLegend_labels fmt (fun s => s) 1 4 eq_refl eq_refl) as [Hno Hyes].
  destruct (Hno (Some true) eq_refl) as [Hm1 Hc1].
  destruct (Hyes None eq_refl) as [Hm2 Hc2].
  split; [exact Hm1 | split; [exact Hc1 | split; [exact Hm2 | exact Hc2]]].
Defined.

(** ** Logo resolver *)

(** C8. While the plugins-loaded flag is false, the resolver renders the
    empty placeholder and nothing else, whatever the props are and whatever
    logo a plugin has registered in the store. *)
Theorem AppLogo_placeholder_until_loaded
    (env : AppLogo.Env) (props : AppLogo.AppLogoProps) :
  AppLogo.plugins_loaded env = false ->
  AppLogo.AppLogo env props = AppLogo.EmptyContent.
Proof.
  intros Hloading. unfold AppLogo.AppLogo. rewrite Hloading. reflexivity.
Qed.

Lemma AppLogo_placeholder_until_loaded_witness :
  AppLogo.AppLogo
    {| AppLogo.plugins_loaded := false;
       AppLogo.theme_logo := AppLogo.LogoComponent "PluginLogo";
       AppLogo.getThemeName := "dark";
       AppLogo.useNavBarMode := "dark" |}
    {| AppLogo.logoType := Some AppLogo.small;
       AppLogo.themeName := Some "light";
       AppLogo.className := None; AppLogo.sx := None |}
  = AppLogo.EmptyContent.
Proof.
  apply AppLogo_placeholder_until_loaded. reflexivity.
Defined.

(** C9 as stated fails: with the plugins loaded and no plugin logo, the
    props ask for the large logo of the dark theme while the navigation bar
    is in light mode; the resolver renders the asset of the light theme,
    not the one selected for the [themeName] it was given. *)
Lemma AppLogo_builtin_ignores_themeName :
  AppLogo.AppLogo
    {| AppLogo.plugins_loaded := true;
       AppLogo.theme_logo := AppLogo.LogoNull;
       AppLogo.getThemeName := "light";
       AppLogo.useNavBarMode := "light" |}
    {| AppLogo.logoType := Some AppLogo.large;
       AppLogo.themeName := Some "dark";
       AppLogo.className := None; AppLogo.sx := None |}
  = AppLogo.Svg AppLogo.LogoWithTextDark "width: auto; height: 32px"
  /\ AppLogo.OriginalAppLogo
       {| AppLogo.logoType := Some AppLogo.large;
          AppLogo.themeName := Some "dark";
          AppLogo.className := None; AppLogo.sx := None |}
     = AppLogo.Svg AppLogo.LogoWithTextLight "width: auto; height: 32px"
  /\ AppLogo.AppLogo
       {| AppLogo.plugins_loaded := true;
          AppLogo.theme_logo := AppLogo.LogoNull;
          AppLogo.getThemeName := "light";
          AppLogo.useNavBarMode := "light" |}
       {| AppLogo.logoType := Some AppLogo.large;
          AppLogo.themeName := Some "dark";
          AppLogo.className := None; AppLogo.sx := None |}
     <> AppLogo.OriginalAppLogo
          {| AppLogo.logoType := Some AppLogo.large;
             AppLogo.themeName := Some "dark";
             AppLogo.className := None; AppLogo.sx := None |}.
Proof. split; [reflexivity | split; [reflexivity | discriminate]]. Qed.

(** C9, amended. With the plugins loaded: the [logoType] prop (['large']
    when omitted) selects the size on both paths; the [themeName] prop
    (the theme-selection accessor when omitted) reaches a plugin-supplied
    component only; the built-in logo takes its theme from the
    navigation-bar mode, so two sets of props that agree on [logoType]
    render the same built-in logo; a plugin-supplied element is rendered as
    it is. *)
Theorem AppLogo_props_and_accessors
    (env : AppLogo.Env) (props : AppLogo.AppLogoProps) :
  AppLogo.plugins_loaded env = true ->
  let size := default AppLogo.large (AppLogo.logoType props) in
  let theme := default (AppLogo.getThemeName env) (AppLogo.themeName props) in
  (forall component, AppLogo.theme_logo env = AppLogo.LogoComponent component ->
     AppLogo.AppLogo env props =
     AppLogo.ErrorBoundary
       (AppLogo.PluginAppLogoComp component
          {| AppLogo.logoType := Some size; AppLogo.themeName := Some theme;
             AppLogo.className := None;
             AppLogo.sx := Some "height: 32px; width: auto" |}))
  /\ (forall element, AppLogo.theme_logo env = AppLogo.LogoElement element ->
        AppLogo.AppLogo env props = AppLogo.ErrorBoundary (AppLogo.Element element))
  /\ (AppLogo.theme_logo env = AppLogo.LogoNull ->
        AppLogo.AppLogo env props =
        AppLogo.OriginalAppLogo
          {| AppLogo.logoType := Some size;
             AppLogo.themeName := Some (AppLogo.useNavBarMode env);
             AppLogo.className := None; AppLogo.sx := None |}
        /\ forall props',
             AppLogo.logoType props' = AppLogo.logoType props ->
             AppLogo.AppLogo env props' = AppLogo.AppLogo env props).
Proof.
  intros Hloaded size theme. unfold AppLogo.AppLogo. rewrite Hloaded. cbn [negb].
  split; [| split].
  - intros component ->. reflexivity.
  - intros element ->. reflexivity.
  - intros ->. split; [reflexivity |].
    intros props' ->. reflexivity.
Qed.

Lemma AppLogo_props_and_accessors_witness :
  AppLogo.AppLogo
    {| AppLogo.plugins_loaded := true;
       AppLogo.theme_logo := AppLogo.LogoNull;
       AppLogo.getThemeName := "light";
       AppLogo.useNavBarMode := "dark" |}
    {| AppLogo.logoType := Some AppLogo.small;
       AppLogo.themeName := Some "light";
       AppLogo.className := None; AppLogo.sx := None |}
  = AppLogo.Svg AppLogo.LogoLight "width: auto; height: 32px".
Proof.
  pose proof
    (AppLogo_props_and_accessors
       {| AppLogo.plugins_loaded := true;
          AppLogo.theme_logo := AppLogo.LogoNull;
          AppLogo.getThemeName := "light";
          AppLogo.useNavBarMode := "dark" |}
       {| AppLogo.logoType := Some AppLogo.small;
          AppLogo.themeName := Some "light";
          AppLogo.className := None; AppLogo.sx := None |}
       eq_refl) as (_ & _ & Hbuiltin).
  destruct (Hbuiltin eq_refl) as [-> _]. reflexivity.
Defined.

(** ** Column layout *)

Lemma append_String (a : Ascii.ascii) (s1 s2 : string) :
  String a s1 +:+ s2 = String a (s1 +:+ s2).
Proof. reflexivity. Qed.

Lemma append_assoc (s1 s2 s3 : string) :
  (s1 +:+ s2) +:+ s3 = s1 +:+ s2 +:+ s3.
Proof.
  induction s1 as [| a s1 IH]; [reflexivity |].
  rewrite !append_String, IH. reflexivity.
Qed.

Lemma join_cons (sep x : string) (l : list string) :
  l <> [] -> JS.join sep (x :: l) = x +:+ sep +:+ JS.join sep l.
Proof. destruct l as [| y l]; [congruence | reflexivity]. Qed.

Lemma join_snoc (sep x : string) (l : list string) :
  l <> [] -> JS.join sep (l ++ [x]) = JS.join sep l +:+ sep +:+ x.
Proof.
  induction l as [| y l IH]; [congruence |]. intros _.
  destruct l as [| z l].
  - reflexivity.
  - change ((y :: z :: l) ++ [x]) with (y :: ((z :: l) ++ [x])).
    rewrite join_cons by (destruct l; discriminate).
    rewrite IH by discriminate.
    rewrite (join_cons sep y (z :: l)) by discriminate.
    rewrite !append_assoc. reflexivity.
Qed.

(** C3. The columns hinted [1], ["2fr"], ["min-content"] with row selection
    enabled give ["0.05fr 1fr 2fr min-content"]. In general a numeric hint
    [n] gives the track ["nfr"], a string hint is taken as it is, a missing
    hint gives ["1fr"]; the template is the tracks of the visible columns
    joined by spaces, with ["0.05fr "] put in front when row selection is
    enabled and [" 0.05fr"] put behind when row actions are; with at least
    one visible column that is the space-separated list of all tracks. *)
Theorem gridTemplateColumns_tracks :
  Table.gridTemplateColumns JS.toString Table.layout_example
    = "0.05fr 1fr 2fr min-content"
  /\ (forall (Num : Type) (Num_toString : Num -> string) id header,
        (forall n, Table.track Num_toString
                     {| Table.id := id; Table.header := header;
                        Table.gridTemplate := Some (Table.GridNumber n) |}
                   = Num_toString n +:+ "fr")
        /\ (forall s, Table.track Num_toString
                        {| Table.id := id; Table.header := header;
                           Table.gridTemplate := Some (Table.GridString s) |}
                      = s)
        /\ Table.track Num_toString
             {| Table.id := id; Table.header := header;
                Table.gridTemplate := None |}
           = "1fr")
  /\ (forall (RowItem Num : Type) (Num_toString : Num -> string)
             (props : @Table.TableProps RowItem Num),
        let columns :=
          JS.join " "
            (map (Table.track Num_toString) (Table.visible_columns props)) in
        let selection := Table.truthy_selection (Table.enableRowSelection props) in
        let actions := JS.truthy_flag (Table.enableRowActions props) in
        Table.gridTemplateColumns Num_toString props
          = (if selection then "0.05fr " else "")
            +:+ (columns +:+ (if actions then " 0.05fr" else ""))
        /\ (Table.visible_columns props <> [] ->
            Table.gridTemplateColumns Num_toString props
              = JS.join " " (Table.grid_tracks Num_toString props))).
Proof.
  split; [reflexivity |]. split.
  - intros Num Num_toString id header. repeat split.
  - intros RowItem Num Num_toString props columns selection actions.
    assert (Hnil : forall s, s +:+ "" = s).
    { induction s as [| a s IH]; [reflexivity |].
      rewrite append_String, IH. reflexivity. }
    split.
    + unfold Table.gridTemplateColumns.
      fold (Table.visible_columns props). fold columns selection actions.
      destruct selection, actions; rewrite ?Hnil; reflexivity.
    + intros Hvisible.
      assert (Htracks : map (Table.track Num_toString)
                          (Table.visible_columns props) <> []).
      { destruct (Table.visible_columns props); [congruence | discriminate]. }
      unfold Table.gridTemplateColumns, Table.grid_tracks.
      fold (Table.visible_columns props). fold columns selection actions.
      destruct selection, actions; cbn [app]; rewrite ?app_nil_r.
      * rewrite join_cons by (intros Heq; apply app_eq_nil in Heq as [? _]; auto).
        rewrite join_snoc by assumption. reflexivity.
      * rewrite join_cons by assumption. reflexivity.
      * rewrite join_snoc by assumption. reflexivity.
      * reflexivity.
Qed.

Lemma gridTemplateColumns_tracks_witness :
  Table.gridTemplateColumns JS.toString Table.layout_example
  = JS.join " " ["0.05fr"; "1fr"; "2fr"; "min-content"].
Proof.
  destruct gridTemplateColumns_tracks as (_ & _ & Hgeneral).
  destruct (Hgeneral unit Z JS.toString Table.layout_example) as [_ Htracks].
  rewrite Htracks; [reflexivity | discriminate].
Defined.

(** ** Rendered state of the table *)

Lemma data_is_empty_iff {RowItem Num : Type} (props : @Table.TableProps RowItem Num) :
  Table.data_is_empty props = true <-> default [] (Table.data props) = [].
Proof.
  unfold Table.data_is_empty.
  destruct (Table.data props) as [[| row rows] |]; cbn; split; congruence.
Qed.

(** C4. The component returns, in this order of precedence: the error
    message when one is given (a truthy node); otherwise the loader while
    [loading] is set; otherwise, when the [data] prop is absent or has no
    row, the empty-state message ([emptyMessage], or the translated default
    text); otherwise the grid. *)
Theorem Table_state_precedence {RowItem Num : Type}
    (Num_toString : Num -> string)
    (props : @Table.TableProps RowItem Num) (env : Table.Env) (h : Table.Hooks) :
  let view := Table.Table Num_toString props env h in
  (Table.truthy_node (Table.errorMessage props) = true ->
     view = Table.ErrorView (Table.errorMessage props))
  /\ (Table.truthy_node (Table.errorMessage props) = false ->
      JS.truthy_flag (Table.loading props) = true ->
      view = Table.LoaderView (Table.t env "Loading table data"))
  /\ (Table.truthy_node (Table.errorMessage props) = false ->
      JS.truthy_flag (Table.loading props) = false ->
      default [] (Table.data props) = [] ->
      view = Table.EmptyView
               (if Table.truthy_node (Table.emptyMessage props)
                then Table.emptyMessage props
                else Table.RText (Table.t env "No data to be shown.")))
  /\ (Table.truthy_node (Table.errorMessage props) = false ->
      JS.truthy_flag (Table.loading props) = false ->
      default [] (Table.data props) <> [] ->
      exists options,
        view = Table.GridView options (Table.gridTemplateColumns Num_toString props)
        /\ Table.grid_data options = Table.tableData props).
Proof.
  intros view. subst view. unfold Table.Table.
  split; [| split; [| split]].
  - intros ->. reflexivity.
  - intros -> ->. reflexivity.
  - intros -> -> Hempty. apply data_is_empty_iff in Hempty. rewrite Hempty.
    reflexivity.
  - intros -> -> Hrows.
    destruct (Table.data_is_empty props) eqn:Hempty.
    + apply data_is_empty_iff in Hempty. contradiction.
    + cbn [andb]. eexists. split; reflexivity.
Qed.

Lemma Table_state_precedence_witness :
  Table.Table JS.toString
    {| Table.columns := []; Table.data := Some [tt];
       Table.emptyMessage := Table.RUndefined;
       Table.errorMessage := Table.RText "Failed to load";
       Table.reflectInURL := Table.ReflectUndefined;
       Table.initialPage := None; Table.rowsPerPage := None;
       Table.filterFunction := None; Table.loading := Some true;
       Table.enableRowActions := None;
       Table.enableRowSelection := Table.SelectionUndefined;
       Table.columnVisibility := None |}
    Table.plain_env
    (Table.mount
       (Table.plain_table [] (Some [tt])) Table.plain_env ∅)
  = Table.ErrorView (Table.RText "Failed to load")
  /\ Table.Table JS.toString (Table.plain_table [] None) Table.plain_env
       (Table.mount (Table.plain_table [] None) Table.plain_env ∅)
     = Table.EmptyView (Table.RText "No data to be shown.").
Proof.
  split.
  - apply Table_state_precedence. reflexivity.
  - apply (Table_state_precedence JS.toString (Table.plain_table [] None));
      reflexivity.
Defined.

(** ** Pagination visibility *)

(** C2 as stated fails: twenty rows under the options [[50; 15]] exceed the
    smallest option, 15, and yet pagination is not enabled, because the
    code compares with the first option, 50. *)
Lemma enablePagination_not_smallest :
  Table.smallest
    (Table.rowsPerPageOptions Table.unsorted_options_example Table.plain_env)
    = Some 15
  /\ 15 < Z.of_nat (length (default [] (Table.data Table.unsorted_options_example)))
  /\ Table.enablePagination Table.unsorted_options_example Table.plain_env = false.
Proof. split; [reflexivity | split; reflexivity]. Qed.

Lemma smallest_cons (o : Z) (options : list Z) :
  Table.smallest (o :: options)
  = match Table.smallest options with
    | Some m => Some (Z.min o m)
    | None => Some o
    end.
Proof. reflexivity. Qed.

Lemma smallest_lower_bound (bound : Z) (options : list Z) (m : Z) :
  Forall (fun o => bound <= o) options ->
  Table.smallest options = Some m -> bound <= m.
Proof.
  intros Hall. revert m.
  induction Hall as [| o options Ho Hrest IH]; intros m Hm; [discriminate |].
  rewrite smallest_cons in Hm.
  destruct (Table.smallest options) as [m' |]; inversion Hm; subst.
  - specialize (IH m' eq_refl). lia.
  - exact Ho.
Qed.

Lemma smallest_head_sorted (o : Z) (options : list Z) :
  Forall (fun o' => o <= o') options -> Table.smallest (o :: options) = Some o.
Proof.
  intros Hall. rewrite smallest_cons.
  destruct (Table.smallest options) as [m |] eqn:Hm; [| reflexivity].
  pose proof (smallest_lower_bound o options m Hall Hm). f_equal. lia.
Qed.

(** C2, amended. Pagination is enabled exactly when the number of rows left
    by the optional filter function exceeds the first of the configured
    page-size options; when no option precedes a smaller one, the first
    option is the smallest and the rule reads as in the spec. *)
Theorem enablePagination_first_option {RowItem Num : Type}
    (props : @Table.TableProps RowItem Num) (env : Table.Env) :
  let options := Table.rowsPerPageOptions props env in
  let rows := Z.of_nat (length (Table.tableData props)) in
  (Table.enablePagination props env = true <->
   exists first, head options = Some first /\ first < rows)
  /\ (forall first rest,
        options = first :: rest -> Forall (fun o => first <= o) rest ->
        (Table.enablePagination props env = true <->
         exists m, Table.smallest options = Some m /\ m < rows)).
Proof.
  intros options rows.
  assert (Hfirst : Table.enablePagination props env = true <->
                   exists first, head options = Some first /\ first < rows).
  { unfold Table.enablePagination. fold options. fold rows.
    destruct (head options) as [first |].
    - rewrite Z.ltb_lt. split; [eauto |]. intros (f & [= <-] & Hlt). exact Hlt.
    - split; [discriminate |]. intros (f & [=] & _). }
  split; [exact Hfirst |].
  intros first rest Hoptions Hsorted. rewrite Hfirst, Hoptions.
  rewrite (smallest_head_sorted first rest Hsorted). reflexivity.
Qed.

Lemma enablePagination_first_option_witness :
  Table.enablePagination
    (Table.plain_table [] (Some (replicate 20 tt))) Table.plain_env = true.
Proof.
  destruct (enablePagination_first_option
              (Table.plain_table [] (Some (replicate 20 tt))) Table.plain_env)
    as [_ Hsmallest].
  apply (Hsmallest 15 [25; 50] eq_refl).
  - repeat constructor; cbv beta; lia.
  - exists 15. split; [reflexivity | reflexivity].
Defined.

(** ** Cluster registration *)

Section Kubeconfig.
Import DynamicClusters.

Lemma strict_eq_string_true (v : JsValue) (text : string) :
  strict_eq_string v text = true <-> v = JString text.
Proof.
  destruct v; cbn; try (split; [discriminate | congruence]).
  rewrite String.eqb_eq. split; congruence.
Qed.

(** Reading a marker field off a truthy document gives the marker exactly
    when the document is an object holding it. *)
Lemma get_marker (document : JsValue) (name text : string) :
  truthy document = true ->
  exists v, get document name = Return v
            /\ (strict_eq_string v text = true <->
                field document name = Some (JString text)).
Proof.
  intros Htruthy.
  destruct document; try discriminate Htruthy; cbn [get field];
    try (eexists; split; [reflexivity |]; cbn; split; discriminate).
  exists (default JUndefined (assoc name fields)). split; [reflexivity |].
  rewrite strict_eq_string_true.
  destruct (assoc name fields) as [v |]; cbn; split; congruence.
Qed.

(** The validator on a document that decodes and parses. *)
Lemma isValidKubeconfig_parsed
    (atob : string -> Result string) (yaml_load : string -> Result JsValue)
    (base64 decoded : string) (document : JsValue) :
  atob base64 = Return decoded ->
  yaml_load decoded = Return document ->
  ~ has_marker_fields document ->
  isValidKubeconfig atob yaml_load base64
  = Some "Invalid kubeconfig format: Missing required fields".
Proof.
  intros Hatob Hyaml Hmissing.
  unfold isValidKubeconfig, isValidKubeconfig_try.
  rewrite Hatob. cbn [mbind Result_bind]. rewrite Hyaml. cbn [mbind Result_bind].
  destruct (truthy document) eqn:Htruthy; [| reflexivity].
  destruct (get_marker document "apiVersion" "v1" Htruthy) as (version & -> & Hversion).
  cbn [mbind Result_bind].
  destruct (strict_eq_string version "v1") eqn:Hv; [| reflexivity].
  destruct (get_marker document "kind" "Config" Htruthy) as (kind & -> & Hkind).
  cbn [mbind Result_bind].
  destruct (strict_eq_string kind "Config") eqn:Hk; [| reflexivity].
  exfalso. apply Hmissing. split; [apply Hversion | apply Hkind]; reflexivity.
Qed.

End Kubeconfig.

(** C7. In dynamic-cluster mode, when the submitted text decodes ([atob])
    and parses ([yaml.load]) to a document that does not carry both
    [apiVersion: v1] and [kind: Config], [handleSubmit] leaves the error at
    exactly ["Invalid kubeconfig format: Missing required fields"] and
    makes no call to the host, so [Headlamp.setCluster] is not invoked; the
    dialog stays open. *)
Theorem handleSubmit_rejects_missing_markers
    (atob : string -> DynamicClusters.Result string)
    (yaml_load : string -> DynamicClusters.Result DynamicClusters.JsValue)
    (st : DynamicClusters.State) (decoded : string)
    (document : DynamicClusters.JsValue) :
  DynamicClusters.isDynamicClusterEnabled st = true ->
  atob (DynamicClusters.kubeconfig st) = DynamicClusters.Return decoded ->
  yaml_load decoded = DynamicClusters.Return document ->
  ~ DynamicClusters.has_marker_fields document ->
  let result := DynamicClusters.handleSubmit atob yaml_load st in
  DynamicClusters.error result.1
    = Some "Invalid kubeconfig format: Missing required fields"
  /\ result.2 = []
  /\ DynamicClusters.open result.1 = DynamicClusters.open st.
Proof.
  intros Hdynamic Hatob Hyaml Hmissing result. subst result.
  unfold DynamicClusters.handleSubmit.
  cbn [DynamicClusters.setError DynamicClusters.isDynamicClusterEnabled
       DynamicClusters.kubeconfig].
  rewrite Hdynamic.
  rewrite (isValidKubeconfig_parsed atob yaml_load _ decoded document
             Hatob Hyaml Hmissing).
  repeat split.
Qed.

Lemma handleSubmit_rejects_missing_markers_witness :
  let atob := fun _ : string => DynamicClusters.Return "kind: Pod" in
  let yaml_load := fun _ : string =>
    DynamicClusters.Return
      (DynamicClusters.JObject [("kind", DynamicClusters.JString "Pod")]) in
  let st :=
    {| DynamicClusters.open := true;
       DynamicClusters.kubeconfig := "a2luZDogUG9k";
       DynamicClusters.name := ""; DynamicClusters.server := "";
       DynamicClusters.isDynamicClusterEnabled := true;
       DynamicClusters.error := None |} in
  DynamicClusters.error (DynamicClusters.handleSubmit atob yaml_load st).1
    = Some "Invalid kubeconfig format: Missing required fields"
  /\ (DynamicClusters.handleSubmit atob yaml_load st).2 = []
  /\ DynamicClusters.open (DynamicClusters.handleSubmit atob yaml_load st).1 = true.
Proof.
  intros atob yaml_load st.
  apply (handleSubmit_rejects_missing_markers atob yaml_load st "kind: Pod"
           (DynamicClusters.JObject [("kind", DynamicClusters.JString "Pod")]));
    [reflexivity | reflexivity | reflexivity |].
  intros [Hversion _]. discriminate Hversion.
Defined.

(** ** Pagination state and the URL *)

(** Reading back a printed number gives the number. *)
Lemma Number_toString (n : Z) : JS.Number (JS.toString n) = Some n.
Proof.
  unfold JS.Number, JS.toString. rewrite NilEmpty.isi. cbn.
  f_equal. apply DecimalZ.of_to.
Qed.

(** Setter calls do not touch the record of the last render. *)
Lemma seen_dispatch (us : list Table.Update) (h : Table.Hooks) :
  Table.seen (Table.dispatch us h) = Table.seen h.
Proof.
  unfold Table.dispatch. revert h.
  induction us as [| u us IH]; intros h; [reflexivity |].
  cbn [foldl]. rewrite IH. destruct u; reflexivity.
Qed.

Lemma renders_step (k : Table.Keys) (n : nat) (h : Table.Hooks) :
  Table.renders k (S n) h = Table.renders k n (Table.commit k h).
Proof. apply Nat.iter_succ_r. Qed.

(** A settled state stays as it is under any number of renders. *)
Lemma renders_settled (k : Table.Keys) (n : nat) (h : Table.Hooks) :
  Table.settled k h -> Table.renders k n h = h.
Proof.
  intros Hs. induction n as [| n IH]; [reflexivity |].
  rewrite renders_step, Hs. exact IH.
Qed.

(** The hooks of a table that reflects its pagination under [pfx]. *)
Section PageSync.
Import Table.
Variable pfx : string.
Let k : Keys := {| key_p := "p"; key_perPage := "perPage"; prefix := pfx |}.
Local Abbreviation fk := (URLState.fullKey "p" pfx).
Local Abbreviation fkS := (URLState.fullKey "perPage" pfx).

(** The page and the page size live under different parameters. *)
Lemma keys_differ : fk <> fkS.
Proof.
  change (pfx +:+ "p" <> pfx +:+ "perPage").
  intros H. apply (inj (String.app pfx)) in H. discriminate.
Qed.

(** A render after the first one, with the dependency tests spelled out. *)
Lemma commit_seen srch pg z pp d :
  commit k {| search := srch; page := pg; zeroIndexPage := z; perPage := pp; seen := Some d |} =
  let now := {| dep_urlPage := srch !! fk; dep_page := pg; dep_zeroIndexPage := z;
                dep_urlPerPage := srch !! fkS; dep_pageSize := pp |} in
  let c1 := usePageURLState_effects "p" pfx
              (bool_decide (dep_urlPage d ≠ srch !! fk))
              (bool_decide (dep_page d ≠ pg))
              (bool_decide (dep_zeroIndexPage d ≠ z)) pg z (srch, []) in
  let c2 := useURLState_effects "perPage" pfx
              (bool_decide (dep_urlPerPage d ≠ srch !! fkS))
              (bool_decide (dep_pageSize d ≠ pp)) pp SetPageSize c1 in
  dispatch c2.2 {| search := c2.1; page := pg; zeroIndexPage := z; perPage := pp; seen := Some now |}.
Proof. reflexivity. Qed.

(** When the URL did not change, or holds the value of the state cell,
    the effects of [useURLState] queue no setter call. *)
Lemma useURLState_effects_quiet key prefix (bu b : bool) value setValue (c : Commit) :
  bu = false \/ URLState.pull c.1 key prefix value = None ->
  useURLState_effects key prefix bu b value setValue c
  = if b then (URLState.push key prefix value c.1, c.2) else c.
Proof.
  intros [-> | Hnone]; unfold useURLState_effects; [reflexivity |].
  rewrite Hnone. destruct bu; reflexivity.
Qed.

Lemma quiet_url {A} `{EqDecision A} (dep now : A) (P : Prop) :
  dep = now \/ P -> bool_decide (dep ≠ now) = false \/ P.
Proof.
  intros [-> | HP]; [left | right; exact HP].
  apply bool_decide_eq_false_2. intros Hn. apply Hn. reflexivity.
Qed.

Lemma lookup_push_perPage v srch :
  URLState.push "p" pfx v srch !! fkS = srch !! fkS.
Proof.
  change (URLState.push "p" pfx v srch) with (<[fk := JS.toString v]> srch).
  apply lookup_insert_ne, keys_differ.
Qed.

Lemma pull_push_perPage v srch pp :
  URLState.pull (URLState.push "p" pfx v srch) "perPage" pfx pp
  = URLState.pull srch "perPage" pfx pp.
Proof.
  unfold URLState.pull, URLState.getURLValue. cbn [String.eqb Ascii.eqb].
  rewrite lookup_push_perPage. reflexivity.
Qed.

(** A render in which the URL asks for nothing: a changed page is pushed
    to the URL and copied to the index, a changed index is copied to the
    page. *)
Lemma commit_cells srch pg z pp d :
  dep_urlPage d = srch !! fk \/ URLState.pull srch "p" pfx pg = None ->
  dep_urlPerPage d = srch !! fkS \/ URLState.pull srch "perPage" pfx pp = None ->
  dep_pageSize d = pp ->
  commit k {| search := srch; page := pg; zeroIndexPage := z; perPage := pp; seen := Some d |} =
  {| search := if bool_decide (dep_page d ≠ pg) then <[fk := JS.toString pg]> srch else srch;
     page := if bool_decide (dep_zeroIndexPage d ≠ z) then z + 1 else pg;
     zeroIndexPage := if bool_decide (dep_page d ≠ pg) then pg - 1 else z;
     perPage := pp;
     seen := Some {| dep_urlPage := srch !! fk; dep_page := pg; dep_zeroIndexPage := z;
                     dep_urlPerPage := srch !! fkS; dep_pageSize := pp |} |}.
Proof.
  intros Hu Hs Hpp. rewrite commit_seen. cbv zeta.
  unfold usePageURLState_effects.
  rewrite (useURLState_effects_quiet "p" pfx _ _ pg SetPage (srch, []))
    by (apply quiet_url, Hu).
  rewrite (bool_decide_eq_false_2 (dep_pageSize d ≠ pp)) by (intros Hn; apply Hn, Hpp).
  apply quiet_url in Hs.
  destruct (bool_decide (dep_page d ≠ pg)) eqn:Hbp;
    destruct (bool_decide (dep_zeroIndexPage d ≠ z)) eqn:Hbz;
    unfold enqueue; cbn [fst snd app];
    (rewrite useURLState_effects_quiet;
     [| cbn [fst snd]; rewrite ?pull_push_perPage; exact Hs]);
    cbn [fst snd dispatch foldl apply_update search page zeroIndexPage perPage seen];
    try reflexivity;
    (destruct (decide (pg - 1 ≠ z)) as [Hz | Hz]; [reflexivity |]);
    (assert (z = pg - 1) as -> by (destruct (decide (pg - 1 = z)); [lia | contradiction]));
    reflexivity.
Qed.

(** The URL parameter changed to a number other than the page. *)
Lemma commit_pull srch pg z pp d n :
  dep_urlPage d ≠ srch !! fk -> URLState.pull srch "p" pfx pg = Some n ->
  dep_page d = pg -> dep_zeroIndexPage d = z ->
  dep_urlPerPage d = srch !! fkS -> dep_pageSize d = pp ->
  commit k {| search := srch; page := pg; zeroIndexPage := z; perPage := pp; seen := Some d |} =
  {| search := srch; page := n; zeroIndexPage := z; perPage := pp;
     seen := Some {| dep_urlPage := srch !! fk; dep_page := pg; dep_zeroIndexPage := z;
                     dep_urlPerPage := srch !! fkS; dep_pageSize := pp |} |}.
Proof.
  intros Hu Hpull Hpg Hz Hus Hpp. rewrite commit_seen. cbv zeta.
  rewrite (bool_decide_eq_true_2 _ Hu).
  rewrite !bool_decide_eq_false_2
    by (intros Hn; apply Hn; first [exact Hpg | exact Hz | exact Hus | exact Hpp]).
  unfold usePageURLState_effects, useURLState_effects. cbn [fst snd].
  rewrite Hpull. reflexivity.
Qed.

(** A state is settled exactly when the last render saw its present
    dependencies. *)
Lemma settled_iff h : settled k h <-> seen h = Some (deps_of k h).
Proof.
  unfold settled. split.
  - intros H. rewrite <- H at 1. unfold commit. rewrite seen_dispatch. reflexivity.
  - intros H. destruct h as [srch pg z pp sn].
    change (sn = Some {| dep_urlPage := srch !! fk; dep_page := pg;
                         dep_zeroIndexPage := z; dep_urlPerPage := srch !! fkS;
                         dep_pageSize := pp |}) in H.
    subst sn.
    rewrite commit_cells by (try left; reflexivity).
    cbn [dep_page dep_zeroIndexPage].
    rewrite !bool_decide_eq_false_2 by (intros Hn; apply Hn; reflexivity).
    reflexivity.
Qed.

Lemma pull_page srch v pg :
  srch !! fk = Some v ->
  URLState.pull srch "p" pfx pg
  = match JS.Number v with
    | Some n => if decide (n ≠ pg) then Some n else None
    | None => None
    end.
Proof.
  intros Hv. unfold URLState.pull, URLState.getURLValue.
  cbn [String.eqb Ascii.eqb]. rewrite Hv. reflexivity.
Qed.

(** The URL side changes: three renders settle on the page it spells. *)
Lemma navigate_converges h s n :
  settled k h -> consistent k h -> JS.Number s = Some n ->
  let h' := renders k 3 (navigate fk s h) in
  settled k h' /\ zeroIndexPage h' = n - 1 /\ page h' = n
  /\ url_page k h' ≫= JS.Number = Some n /\ perPage h' = perPage h.
Proof.
  intros Hs [Hz Hu] Hn. apply settled_iff in Hs.
  destruct h as [srch pg z pp sn].
  change (sn = Some {| dep_urlPage := srch !! fk; dep_page := pg;
                       dep_zeroIndexPage := z; dep_urlPerPage := srch !! fkS;
                       dep_pageSize := pp |}) in Hs.
  change (z = pg - 1) in Hz.
  change (srch !! fk ≫= JS.Number = Some pg) in Hu.
  subst sn z. unfold navigate.
  cbn [search page zeroIndexPage perPage seen].
  assert (Hfk : forall v (m : gmap string string), <[fk := v]> m !! fk = Some v)
    by (intros; apply lookup_insert_eq).
  assert (HfkS : forall v (m : gmap string string), <[fk := v]> m !! fkS = m !! fkS)
    by (intros; apply lookup_insert_ne, keys_differ).
  destruct (decide (n = pg)) as [-> | Hne].
  - (* the URL spells the page the table is on *)
    rewrite renders_step, commit_cells; cycle 1.
    { right. rewrite (pull_page _ s) by apply Hfk. rewrite Hn.
      case_decide; [contradiction | reflexivity]. }
    { left. cbn [dep_urlPerPage]. symmetry. apply HfkS. }
    { reflexivity. }
    cbn [dep_page dep_zeroIndexPage].
    rewrite !bool_decide_eq_false_2 by (intros Hx; apply Hx; reflexivity).
    rewrite renders_settled by (apply settled_iff; reflexivity).
    split; [apply settled_iff; reflexivity |].
    unfold url_page. cbn [search page zeroIndexPage perPage key_p prefix k].
    rewrite Hfk. cbn. auto.
  - (* the URL spells another page *)
    assert (Hurl : srch !! fk ≠ Some s).
    { intros Heq. rewrite Heq in Hu. cbn in Hu. congruence. }
    rewrite renders_step, (commit_pull _ _ _ _ _ n); cycle 1.
    { cbn [dep_urlPage]. rewrite Hfk. exact Hurl. }
    { rewrite (pull_page _ s) by apply Hfk. rewrite Hn.
      case_decide; [reflexivity | contradiction]. }
    { reflexivity. } { reflexivity. }
    { cbn [dep_urlPerPage]. symmetry. apply HfkS. }
    { reflexivity. }
    rewrite renders_step, commit_cells; cycle 1.
    { left. reflexivity. } { left. reflexivity. } { reflexivity. }
    cbn [dep_page dep_zeroIndexPage].
    rewrite (bool_decide_eq_true_2 (pg ≠ n)) by congruence.
    rewrite bool_decide_eq_false_2 by (intros Hx; apply Hx; reflexivity).
    rewrite renders_step, commit_cells; cycle 1.
    { right. rewrite (pull_page _ (JS.toString n)) by apply Hfk.
      rewrite Number_toString. case_decide; [contradiction | reflexivity]. }
    { left. cbn [dep_urlPerPage]. rewrite !HfkS. reflexivity. }
    { reflexivity. }
    cbn [dep_page dep_zeroIndexPage].
    rewrite (bool_decide_eq_false_2 (n ≠ n)) by (intros Hx; apply Hx; reflexivity).
    rewrite (bool_decide_eq_true_2 (pg - 1 ≠ n - 1)) by lia.
    replace (n - 1 + 1) with n by lia.
    rewrite renders_settled by (apply settled_iff; reflexivity).
    split; [apply settled_iff; reflexivity |].
    unfold url_page. cbn [search page zeroIndexPage perPage key_p prefix k].
    rewrite Hfk. cbn [mbind option_bind]. rewrite Number_toString. auto.
Qed.

(** The internal side changes: three renders settle and the URL follows. *)
Lemma setZeroIndexPage_converges h f :
  settled k h -> consistent k h ->
  let h' := renders k 3 (dispatch [SetZeroIndexPage f] h) in
  settled k h' /\ zeroIndexPage h' = f (zeroIndexPage h)
  /\ page h' = f (zeroIndexPage h) + 1
  /\ url_page k h' ≫= JS.Number = Some (f (zeroIndexPage h) + 1)
  /\ (f (zeroIndexPage h) ≠ zeroIndexPage h ->
      url_page k h' = Some (JS.toString (f (zeroIndexPage h) + 1)))
  /\ perPage h' = perPage h.
Proof.
  intros Hs [Hz Hu]. apply settled_iff in Hs.
  destruct h as [srch pg z pp sn].
  change (sn = Some {| dep_urlPage := srch !! fk; dep_page := pg;
                       dep_zeroIndexPage := z; dep_urlPerPage := srch !! fkS;
                       dep_pageSize := pp |}) in Hs.
  change (z = pg - 1) in Hz.
  change (srch !! fk ≫= JS.Number = Some pg) in Hu.
  subst sn. cbn [dispatch foldl apply_update search page zeroIndexPage perPage seen].
  assert (Hfk : forall v (m : gmap string string), <[fk := v]> m !! fk = Some v)
    by (intros; apply lookup_insert_eq).
  assert (HfkS : forall v (m : gmap string string), <[fk := v]> m !! fkS = m !! fkS)
    by (intros; apply lookup_insert_ne, keys_differ).
  set (z' := f z).
  destruct (decide (z' = z)) as [Hsame | Hne].
  - (* the index is set to what it was *)
    rewrite Hsame.
    rewrite renders_settled by (apply settled_iff; reflexivity).
    split; [apply settled_iff; reflexivity |].
    unfold url_page. cbn [search page zeroIndexPage perPage key_p prefix k].
    repeat split; [lia | rewrite Hu; f_equal; lia | contradiction].
  - rewrite renders_step, commit_cells; cycle 1.
    { left. reflexivity. } { left. reflexivity. } { reflexivity. }
    cbn [dep_page dep_zeroIndexPage].
    rewrite (bool_decide_eq_false_2 (pg ≠ pg)) by (intros Hx; apply Hx; reflexivity).
    rewrite (bool_decide_eq_true_2 (z ≠ z')) by congruence.
    rewrite renders_step, commit_cells; cycle 1.
    { left. reflexivity. } { left. reflexivity. } { reflexivity. }
    cbn [dep_page dep_zeroIndexPage].
    rewrite (bool_decide_eq_true_2 (pg ≠ z' + 1)) by lia.
    rewrite (bool_decide_eq_false_2 (z' ≠ z')) by (intros Hx; apply Hx; reflexivity).
    replace (z' + 1 - 1) with z' by lia.
    rewrite renders_step, commit_cells; cycle 1.
    { right. rewrite (pull_page _ (JS.toString (z' + 1))) by apply Hfk.
      rewrite Number_toString. case_decide; [contradiction | reflexivity]. }
    { left. cbn [dep_urlPerPage]. rewrite !HfkS. reflexivity. }
    { reflexivity. }
    cbn [dep_page dep_zeroIndexPage].
    rewrite !bool_decide_eq_false_2 by (intros Hx; apply Hx; reflexivity).
    rewrite renders_settled by (apply settled_iff; reflexivity).
    split; [apply settled_iff; reflexivity |].
    unfold url_page. cbn [search page zeroIndexPage perPage key_p prefix k].
    rewrite Hfk. cbn [mbind option_bind]. rewrite Number_toString. auto 10.
Qed.

Lemma pull_initialValue srch key dflt :
  URLState.pull srch key pfx (URLState.initialValue srch key pfx dflt) = None.
Proof.
  unfold URLState.pull, URLState.initialValue.
  destruct (URLState.getURLValue srch key pfx) as [n |]; [| reflexivity].
  cbn [default]. case_decide; [contradiction | reflexivity].
Qed.

(** A mounted table settles in two renders, its two sides agreeing. *)
Lemma mount_settles srch0 pg0 pp0 dflt dflt' :
  pg0 = URLState.initialValue srch0 "p" pfx dflt ->
  pp0 = URLState.initialValue srch0 "perPage" pfx dflt' ->
  let h := renders k 2 {| search := srch0; page := pg0; zeroIndexPage := pg0 - 1;
                          perPage := pp0; seen := None |} in
  settled k h /\ consistent k h /\ page h = pg0 /\ perPage h = pp0.
Proof.
  intros Hpg Hpp.
  assert (Hfk : forall v (m : gmap string string), <[fk := v]> m !! fk = Some v)
    by (intros; apply lookup_insert_eq).
  assert (HfkS : forall v (m : gmap string string), <[fk := v]> m !! fkS = m !! fkS)
    by (intros; apply lookup_insert_ne, keys_differ).
  assert (HfkS' : forall v (m : gmap string string), <[fkS := v]> m !! fk = m !! fk)
    by (intros; apply lookup_insert_ne; intros Heq; symmetry in Heq; revert Heq; apply keys_differ).
  rewrite renders_step.
  assert (Hfirst :
    commit k {| search := srch0; page := pg0; zeroIndexPage := pg0 - 1;
                perPage := pp0; seen := None |}
    = {| search := <[fkS := JS.toString pp0]> (<[fk := JS.toString pg0]> srch0);
         page := pg0; zeroIndexPage := pg0 - 1; perPage := pp0;
         seen := Some {| dep_urlPage := srch0 !! fk; dep_page := pg0;
                         dep_zeroIndexPage := pg0 - 1;
                         dep_urlPerPage := srch0 !! fkS; dep_pageSize := pp0 |} |}).
  { unfold commit, changed.
    cbn [seen search page zeroIndexPage perPage key_p key_perPage prefix k].
    unfold usePageURLState_effects.
    rewrite (useURLState_effects_quiet "p" pfx true true pg0 SetPage (srch0, []))
      by (right; cbn [fst]; rewrite Hpg; apply pull_initialValue).
    unfold enqueue. cbn [fst snd app].
    rewrite useURLState_effects_quiet
      by (right; cbn [fst]; rewrite pull_push_perPage, Hpp; apply pull_initialValue).
    cbn [fst snd dispatch foldl apply_update search page zeroIndexPage perPage seen].
    destruct (decide (pg0 - 1 ≠ pg0 - 1)) as [Hx | _]; [contradiction |].
    replace (pg0 - 1 + 1) with pg0 by lia. reflexivity. }
  rewrite Hfirst, renders_step, commit_cells; cycle 1.
  { right. rewrite (pull_page _ (JS.toString pg0)) by (rewrite HfkS'; apply Hfk).
    rewrite Number_toString. case_decide; [contradiction | reflexivity]. }
  { right. unfold URLState.pull, URLState.getURLValue. cbn [String.eqb Ascii.eqb].
    rewrite lookup_insert_eq. cbn [mbind option_bind]. rewrite Number_toString.
    case_decide; [contradiction | reflexivity]. }
  { reflexivity. }
  cbn [dep_page dep_zeroIndexPage].
  rewrite !bool_decide_eq_false_2 by (intros Hx; apply Hx; reflexivity).
  rewrite renders_settled by (apply settled_iff; reflexivity).
  split; [apply settled_iff; reflexivity |].
  unfold consistent, url_page. cbn [search page zeroIndexPage perPage key_p prefix k].
  rewrite HfkS', Hfk. cbn [mbind option_bind]. rewrite Number_toString. auto.
Qed.
End PageSync.

Lemma renders_more (k : Table.Keys) (n more : nat) (h : Table.Hooks) :
  Table.settled k (Table.renders k n h) ->
  Table.renders k (more + n) h = Table.renders k n h.
Proof.
  intros Hsettled. unfold Table.renders at 1. rewrite Nat.iter_add.
  apply (renders_settled k more), Hsettled.
Qed.

Lemma url_page_eq (k : Table.Keys) (h : Table.Hooks) :
  Table.url_page k h
  = Table.search h !! URLState.fullKey (Table.key_p k) (Table.prefix k).
Proof. reflexivity. Qed.

(** A value of [reflectInURL] that asks for reflection yields the keys
    ["p"] and ["perPage"] under its prefix. *)
Lemma keys_of_reflecting (r : Table.ReflectInURL) :
  Table.key_p (Table.keys_of r) <> "" ->
  Table.keys_of r
  = {| Table.key_p := "p"; Table.key_perPage := "perPage";
       Table.prefix := Table.prefix (Table.keys_of r) |}.
Proof.
  destruct r as [| [|] | s]; cbn; intros Hkey; try reflexivity; congruence.
Qed.

(** C1. Under the prefix ["x"], from a settled table whose two sides agree:
    once the URL page parameter ["xp"] is set to ["3"] the internal index
    is 2, and once the internal index is then set to 5 the parameter reads
    ["6"]. In general, for a table that reflects its pagination: after the
    URL parameter is set to a string spelling [n], or after the internal
    index is set through its setter, three renders reach a state that
    further renders leave unchanged and in which the internal index is the
    URL page minus one (the URL's [n], respectively the index just set).
    A freshly mounted table reaches such a state after two renders. *)
Theorem page_index_follows_url :
  (forall h : Table.Hooks,
     let k := Table.keys_of (Table.ReflectPrefix "x") in
     Table.settled k h -> Table.consistent k h ->
     let h1 := Table.renders k 3 (Table.navigate "xp" "3" h) in
     let h2 :=
       Table.renders k 3
         (Table.dispatch [Table.SetZeroIndexPage (fun _ => 5)] h1) in
     Table.zeroIndexPage h1 = 2
     /\ Table.zeroIndexPage h2 = 5
     /\ Table.search h2 !! "xp" = Some "6")
  /\ (forall (r : Table.ReflectInURL) (h : Table.Hooks),
        let k := Table.keys_of r in
        Table.key_p k <> "" -> Table.settled k h -> Table.consistent k h ->
        (forall (s : string) (n : Z),
           JS.Number s = Some n ->
           let changed :=
             Table.navigate
               (URLState.fullKey (Table.key_p k) (Table.prefix k)) s h in
           let h' := Table.renders k 3 changed in
           Table.settled k h' /\ Table.consistent k h'
           /\ Table.zeroIndexPage h' = n - 1
           /\ forall more, Table.renders k (more + 3) changed = h')
        /\ (forall f : Z -> Z,
              let changed := Table.dispatch [Table.SetZeroIndexPage f] h in
              let h' := Table.renders k 3 changed in
              Table.settled k h' /\ Table.consistent k h'
              /\ Table.zeroIndexPage h' = f (Table.zeroIndexPage h)
              /\ (f (Table.zeroIndexPage h) <> Table.zeroIndexPage h ->
                  Table.url_page k h'
                  = Some (JS.toString (f (Table.zeroIndexPage h) + 1)))
              /\ forall more, Table.renders k (more + 3) changed = h'))
  /\ (forall (RowItem Num : Type) (props : @Table.TableProps RowItem Num)
             (env : Table.Env) (search0 : gmap string string),
        let k := Table.keys_of (Table.reflectInURL props) in
        Table.key_p k <> "" ->
        let h := Table.renders k 2 (Table.mount props env search0) in
        Table.settled k h /\ Table.consistent k h
        /\ Table.page h
           = URLState.initialValue search0 "p" (Table.prefix k)
               (default 1 (Table.initialPage props) + 1)).
Proof.
  assert (Hgeneral :
    forall (r : Table.ReflectInURL) (h : Table.Hooks),
      let k := Table.keys_of r in
      Table.key_p k <> "" -> Table.settled k h -> Table.consistent k h ->
      (forall (s : string) (n : Z),
         JS.Number s = Some n ->
         let changed :=
           Table.navigate
             (URLState.fullKey (Table.key_p k) (Table.prefix k)) s h in
         let h' := Table.renders k 3 changed in
         Table.settled k h' /\ Table.consistent k h'
         /\ Table.zeroIndexPage h' = n - 1
         /\ forall more, Table.renders k (more + 3) changed = h')
      /\ (forall f : Z -> Z,
            let changed := Table.dispatch [Table.SetZeroIndexPage f] h in
            let h' := Table.renders k 3 changed in
            Table.settled k h' /\ Table.consistent k h'
            /\ Table.zeroIndexPage h' = f (Table.zeroIndexPage h)
            /\ (f (Table.zeroIndexPage h) <> Table.zeroIndexPage h ->
                Table.url_page k h'
                = Some (JS.toString (f (Table.zeroIndexPage h) + 1)))
            /\ forall more, Table.renders k (more + 3) changed = h')).
  { intros r h k Hkey. subst k. rewrite (keys_of_reflecting r Hkey).
    set (pfx := Table.prefix (Table.keys_of r)). cbn [Table.key_p Table.prefix].
    intros Hsettled Hconsistent. split.
    - intros s n Hn.
      destruct (navigate_converges pfx h s n Hsettled Hconsistent Hn)
        as (Hs' & Hz' & Hp' & Hu' & _).
      split; [exact Hs' |]. split; [split; [lia | congruence] |].
      split; [exact Hz' |]. intros more. apply renders_more, Hs'.
    - intros f.
      destruct (setZeroIndexPage_converges pfx h f Hsettled Hconsistent)
        as (Hs' & Hz' & Hp' & Hu' & Hurl & _).
      split; [exact Hs' |]. split; [split; [lia | congruence] |].
      split; [exact Hz' |]. split; [exact Hurl |].
      intros more. apply renders_more, Hs'. }
  split; [| split; [exact Hgeneral |]].
  - intros h k Hsettled Hconsistent h1 h2.
    assert (Hxp : URLState.fullKey (Table.key_p k) (Table.prefix k) = "xp")
      by reflexivity.
    destruct (Hgeneral (Table.ReflectPrefix "x") h) as [Hurl _];
      [discriminate | exact Hsettled | exact Hconsistent |].
    destruct (Hurl "3" 3 eq_refl) as (Hs1 & Hc1 & Hz1 & _).
    fold k in Hs1, Hc1, Hz1. rewrite Hxp in Hs1, Hc1, Hz1.
    fold h1 in Hs1, Hc1, Hz1.
    destruct (Hgeneral (Table.ReflectPrefix "x") h1) as [_ Hset];
      [discriminate | exact Hs1 | exact Hc1 |].
    destruct (Hset (fun _ => 5)) as (_ & _ & Hz2 & Hurl2 & _).
    fold k in Hz2, Hurl2. fold h2 in Hz2, Hurl2.
    split; [exact Hz1 |]. split; [exact Hz2 |].
    assert (Hne : (fun _ : Z => 5) (Table.zeroIndexPage h1) <> Table.zeroIndexPage h1)
      by (rewrite Hz1; discriminate).
    specialize (Hurl2 Hne).
    rewrite url_page_eq, Hxp in Hurl2.
    rewrite Hurl2. reflexivity.
  - intros RowItem Num props env search0 k Hkey h. subst h k.
    unfold Table.mount, Table.usePageURLState_init.
    destruct (Table.reflectInURL props) as [| [|] | pfx];
      cbn [Table.keys_of Table.key_p] in Hkey; try congruence;
      cbn [Table.keys_of Table.key_p Table.key_perPage Table.prefix fst snd].
    + destruct (mount_settles "" search0 _ _
                  (default 1 (Table.initialPage props) + 1)
                  (Table.defaultRowsPerPage props env) eq_refl eq_refl)
        as (Hs & Hc & Hp & _).
      split; [exact Hs |]. split; [exact Hc | exact Hp].
    + destruct (mount_settles pfx search0 _ _
                  (default 1 (Table.initialPage props) + 1)
                  (Table.defaultRowsPerPage props env) eq_refl eq_refl)
        as (Hs & Hc & Hp & _).
      split; [exact Hs |]. split; [exact Hc | exact Hp].
Qed.

Lemma page_index_follows_url_witness :
  let k := Table.keys_of (Table.ReflectPrefix "x") in
  let h :=
    Table.renders k 2
      (Table.mount Table.reflecting_example Table.plain_env ∅) in
  let h1 := Table.renders k 3 (Table.navigate "xp" "3" h) in
  let h2 :=
    Table.renders k 3
      (Table.dispatch [Table.SetZeroIndexPage (fun _ => 5)] h1) in
  Table.zeroIndexPage h1 = 2
  /\ Table.zeroIndexPage h2 = 5
  /\ Table.search h2 !! "xp" = Some "6".
Proof.
  intros k h.
  destruct page_index_follows_url as [Hexample _].
  apply (Hexample h).
  - vm_compute. reflexivity.
  - vm_compute. split; reflexivity.
Defined.

(** ** Pagination events on a table without data *)

(** C10. When the [data] prop is absent or has no row, the handler of the
    grid engine's pagination events calls no setter, whatever the update
    is: the hook state, with the internal page index, the page size and
    the URL, is the one from before, and stays so through the renders that
    follow when it was settled. *)
Theorem onPaginationChange_noop_without_data {RowItem Num : Type}
    (props : @Table.TableProps RowItem Num) (h : Table.Hooks)
    (updater : Table.Pagination -> Table.Pagination) :
  default [] (Table.data props) = [] ->
  let calls := Table.onPaginationChange props h updater in
  calls = []
  /\ Table.dispatch calls h = h
  /\ forall (k : Table.Keys) (n : nat),
       Table.settled k h ->
       let h' := Table.renders k n (Table.dispatch calls h) in
       h' = h
       /\ Table.zeroIndexPage h' = Table.zeroIndexPage h
       /\ Table.perPage h' = Table.perPage h
       /\ Table.url_page k h' = Table.url_page k h
       /\ Table.url_perPage k h' = Table.url_perPage k h.
Proof.
  intros Hempty calls.
  assert (Hcalls : calls = []).
  { subst calls. unfold Table.onPaginationChange.
    apply data_is_empty_iff in Hempty. rewrite Hempty. reflexivity. }
  rewrite Hcalls. split; [reflexivity |]. split; [reflexivity |].
  intros k n Hsettled h'. subst h'.
  change (Table.dispatch [] h) with h.
  rewrite (renders_settled k n h Hsettled). repeat split.
Qed.

Lemma onPaginationChange_noop_without_data_witness :
  let k := Table.keys_of (Table.ReflectPrefix "x") in
  let h :=
    Table.renders k 2
      (Table.mount Table.reflecting_example Table.plain_env ∅) in
  let nextPage := fun p : Table.Pagination =>
    {| Table.pageIndex := Table.pageIndex p + 1;
       Table.pageSize := Table.pageSize p |} in
  Table.dispatch
    (Table.onPaginationChange (Table.plain_table [] (Some [])) h nextPage) h
  = h.
Proof.
  intros k h nextPage.
  destruct (onPaginationChange_noop_without_data
              (Table.plain_table [] (Some [])) h nextPage eq_refl)
    as (_ & Hsame & _).
  exact Hsame.
Defined.

(** With rows in the table the same event does reach the setters: the
    guard is what makes the handler silent. *)
Example onPaginationChange_with_data :
  let k := Table.keys_of (Table.ReflectPrefix "x") in
  let h :=
    Table.renders k 2
      (Table.mount Table.reflecting_example Table.plain_env ∅) in
  let nextPage := fun p : Table.Pagination =>
    {| Table.pageIndex := Table.pageIndex p + 1;
       Table.pageSize := Table.pageSize p |} in
  Table.zeroIndexPage h = 1
  /\ Table.zeroIndexPage
       (Table.dispatch
          (Table.onPaginationChange Table.reflecting_example h nextPage) h)
     = 2.
Proof. vm_compute. split; reflexivity. Qed.

(* ===================================================================== *)
(** * Part III: further properties of the code                             *)
(* ===================================================================== *)

(** ** Chart legends *)

Lemma append_nonempty (s1 s2 : string) (c : Ascii.ascii) :
  s1 +:+ String c s2 <> "".
Proof.
  destruct s1 as [| a s1]; [change (String c s2 <> ""); discriminate |].
  rewrite append_String. discriminate.
Qed.

(** X1. The legend of the CPU chart is empty exactly when the available
    value is [0] or [-1]; the legend of the memory chart is empty exactly
    then, or when [noMetrics] is set and the formatter itself returns the
    empty string for the available value. *)
Theorem getLegend_empty_iff
    (formatMetricValueUnit : float -> string -> string -> string)
    (t : string -> string) (noMetrics : option bool) (used available : float) :
  let sentinel :=
    JS.strict_eq_number available 0 || JS.strict_eq_number available (-1) in
  (CpuCircularChart.getLegend formatMetricValueUnit t noMetrics used available = ""
   <-> sentinel = true)
  /\ (MemoryCircularChart.getLegend formatMetricValueUnit noMetrics used available = ""
      <-> sentinel = true
          \/ (JS.truthy_flag noMetrics = true
              /\ formatMetricValueUnit available "" "binary" = "")).
Proof.
  intros sentinel.
  unfold CpuCircularChart.getLegend, MemoryCircularChart.getLegend.
  fold sentinel. destruct sentinel.
  - split; split; auto.
  - split.
    + split; [| discriminate]. intros Hempty. exfalso. revert Hempty.
      destruct (JS.truthy_flag noMetrics).
      * apply (append_nonempty _ (t "cores") Ascii.Space).
      * apply (append_nonempty _ _ Ascii.Space).
    + destruct (JS.truthy_flag noMetrics).
      * split; [intros Hempty; right; split; [reflexivity | exact Hempty] |].
        intros [Hs | [_ Hempty]]; [discriminate | exact Hempty].
      * split.
        -- intros Hempty. exfalso. revert Hempty.
           apply (append_nonempty _ _ Ascii.Space).
        -- intros [Hs | [Hn _]]; discriminate.
Qed.

(** ** Logo resolver *)

(** X2. The built-in logo is chosen from a two by two matrix with four
    different assets: two sets of props render the same logo exactly when
    they agree on whether [logoType] is ['large'] and on whether
    [themeName] is ['dark']. Every other theme name, an omitted one
    included, counts as light; an omitted [logoType] counts as small. *)
Theorem OriginalAppLogo_matrix (p q : AppLogo.AppLogoProps) :
  AppLogo.OriginalAppLogo p = AppLogo.OriginalAppLogo q
  <-> (AppLogo.is_large (AppLogo.logoType p) = AppLogo.is_large (AppLogo.logoType q)
       /\ AppLogo.is_dark (AppLogo.themeName p)
          = AppLogo.is_dark (AppLogo.themeName q)).
Proof.
  unfold AppLogo.OriginalAppLogo.
  destruct (AppLogo.is_large (AppLogo.logoType p)),
           (AppLogo.is_large (AppLogo.logoType q)),
           (AppLogo.is_dark (AppLogo.themeName p)),
           (AppLogo.is_dark (AppLogo.themeName q));
    split; try (intros [? ?]); try discriminate; auto.
Qed.

(** X3. What the resolver returns falls in four classes that the store
    decides: the placeholder exactly when the plugins are not loaded; a
    built-in asset exactly when they are loaded and no plugin logo is
    registered; otherwise the plugin's element or component inside an
    error boundary. Plugin content is never returned outside an error
    boundary, and a built-in asset never inside one. *)
Theorem AppLogo_classes (env : AppLogo.Env) (props : AppLogo.AppLogoProps) :
  (AppLogo.AppLogo env props = AppLogo.EmptyContent
   <-> AppLogo.plugins_loaded env = false)
  /\ ((exists asset style, AppLogo.AppLogo env props = AppLogo.Svg asset style)
      <-> AppLogo.plugins_loaded env = true
          /\ AppLogo.theme_logo env = AppLogo.LogoNull)
  /\ (forall child, AppLogo.AppLogo env props = AppLogo.ErrorBoundary child ->
        AppLogo.plugins_loaded env = true
        /\ ((exists element,
               AppLogo.theme_logo env = AppLogo.LogoElement element
               /\ child = AppLogo.Element element)
            \/ (exists component childProps,
                  AppLogo.theme_logo env = AppLogo.LogoComponent component
                  /\ child = AppLogo.PluginAppLogoComp component childProps)))
  /\ (forall element, AppLogo.AppLogo env props <> AppLogo.Element element)
  /\ (forall component childProps,
        AppLogo.AppLogo env props
        <> AppLogo.PluginAppLogoComp component childProps).
Proof.
  assert (Hcases :
    match AppLogo.plugins_loaded env, AppLogo.theme_logo env with
    | false, _ => AppLogo.AppLogo env props = AppLogo.EmptyContent
    | true, AppLogo.LogoNull =>
        exists asset style, AppLogo.AppLogo env props = AppLogo.Svg asset style
    | true, AppLogo.LogoElement element =>
        AppLogo.AppLogo env props = AppLogo.ErrorBoundary (AppLogo.Element element)
    | true, AppLogo.LogoComponent component =>
        exists childProps,
          AppLogo.AppLogo env props
          = AppLogo.ErrorBoundary (AppLogo.PluginAppLogoComp component childProps)
    end).
  { unfold AppLogo.AppLogo, AppLogo.OriginalAppLogo.
    destruct (AppLogo.plugins_loaded env); [| reflexivity].
    destruct (AppLogo.theme_logo env); cbn [negb]; eauto. }
  destruct (AppLogo.plugins_loaded env);
    destruct (AppLogo.theme_logo env) as [| element | component].
  - destruct Hcases as (asset & style & ->).
    split; [split; discriminate |]. split; [split; eauto |].
    repeat split; discriminate.
  - rewrite Hcases.
    split; [split; discriminate |].
    split; [split; [intros (? & ? & ?); discriminate | intros [_ ?]; discriminate] |].
    split; [| split; discriminate].
    intros child [= <-]. split; [reflexivity |]. left. eauto.
  - destruct Hcases as (childProps & ->).
    split; [split; discriminate |].
    split; [split; [intros (? & ? & ?); discriminate | intros [_ ?]; discriminate] |].
    split; [| split; discriminate].
    intros child [= <-]. split; [reflexivity |]. right. eauto.
  - rewrite Hcases. split; [split; reflexivity |].
    split; [split; [intros (? & ? & ?); discriminate | intros [? _]; discriminate] |].
    repeat split; discriminate.
  - rewrite Hcases. split; [split; reflexivity |].
    split; [split; [intros (? & ? & ?); discriminate | intros [? _]; discriminate] |].
    repeat split; discriminate.
  - rewrite Hcases. split; [split; reflexivity |].
    split; [split; [intros (? & ? & ?); discriminate | intros [? _]; discriminate] |].
    repeat split; discriminate.
Qed.

(** X4. With the plugins loaded and no plugin logo, the asset depends on
    the props only through [logoType] and on the surroundings only through
    the navigation-bar mode: the icon alone for ['small'], the logo with
    text otherwise (also when [logoType] is omitted), in the variant for
    dark backgrounds exactly when the mode is ['dark']. *)
Theorem AppLogo_builtin_asset (env : AppLogo.Env) (props : AppLogo.AppLogoProps) :
  AppLogo.plugins_loaded env = true ->
  AppLogo.theme_logo env = AppLogo.LogoNull ->
  AppLogo.AppLogo env props
  = AppLogo.Svg
      (match AppLogo.logoType props,
             String.eqb (AppLogo.useNavBarMode env) "dark" with
       | Some AppLogo.small, true => AppLogo.LogoLight
       | Some AppLogo.small, false => AppLogo.LogoDark
       | _, true => AppLogo.LogoWithTextLight
       | _, false => AppLogo.LogoWithTextDark
       end)
      "width: auto; height: 32px".
Proof.
  intros Hloaded Hnull. unfold AppLogo.AppLogo, AppLogo.OriginalAppLogo.
  rewrite Hloaded, Hnull.
  cbn [negb AppLogo.logoType AppLogo.themeName AppLogo.is_large AppLogo.is_dark].
  destruct (AppLogo.logoType props) as [[|] |];
    cbn [default AppLogo.is_large];
    destruct (String.eqb (AppLogo.useNavBarMode env) "dark"); reflexivity.
Qed.

Lemma AppLogo_builtin_asset_witness :
  AppLogo.AppLogo
    {| AppLogo.plugins_loaded := true;
       AppLogo.theme_logo := AppLogo.LogoNull;
       AppLogo.getThemeName := "light";
       AppLogo.useNavBarMode := "dark" |}
    {| AppLogo.logoType := None; AppLogo.themeName := Some "light";
       AppLogo.className := None; AppLogo.sx := None |}
  = AppLogo.Svg AppLogo.LogoWithTextLight "width: auto; height: 32px".
Proof.
  apply (AppLogo_builtin_asset
           {| AppLogo.plugins_loaded := true;
              AppLogo.theme_logo := AppLogo.LogoNull;
              AppLogo.getThemeName := "light";
              AppLogo.useNavBarMode := "dark" |}
           {| AppLogo.logoType := None; AppLogo.themeName := Some "light";
              AppLogo.className := None; AppLogo.sx := None |});
    reflexivity.
Defined.

(** ** Cluster registration *)

Section Registration.
Import DynamicClusters.
Variable atob : string -> Result string.
Variable yaml_load : string -> Result JsValue.

(** The validator accepts a decoded and parsed document that carries both
    markers. *)
Lemma isValidKubeconfig_markers (base64 decoded : string) (document : JsValue) :
  atob base64 = Return decoded ->
  yaml_load decoded = Return document ->
  has_marker_fields document ->
  isValidKubeconfig atob yaml_load base64 = None.
Proof.
  intros Hatob Hyaml [Hversion Hkind].
  unfold isValidKubeconfig, isValidKubeconfig_try.
  rewrite Hatob. cbn [mbind Result_bind]. rewrite Hyaml. cbn [mbind Result_bind].
  destruct document; try discriminate Hversion.
  cbn [field] in Hversion, Hkind.
  cbn [truthy get]. rewrite Hversion, Hkind. reflexivity.
Qed.

(** What the validator returns is [null] or a text that is not empty. *)
Lemma isValidKubeconfig_truthy (base64 : string) :
  JS.truthy_string (isValidKubeconfig atob yaml_load base64)
  = match isValidKubeconfig atob yaml_load base64 with
    | Some _ => true
    | None => false
    end.
Proof.
  unfold isValidKubeconfig, isValidKubeconfig_try.
  destruct (atob base64) as [decoded | message]; cbn [mbind Result_bind];
    [| reflexivity].
  destruct (yaml_load decoded) as [document | message]; cbn [mbind Result_bind];
    [| reflexivity].
  destruct (truthy document); [| reflexivity].
  destruct (get document "apiVersion") as [version | message];
    cbn [mbind Result_bind]; [| reflexivity].
  destruct (strict_eq_string version "v1"); [| reflexivity].
  destruct (get document "kind") as [kind | message];
    cbn [mbind Result_bind]; [| reflexivity].
  destruct (strict_eq_string kind "Config"); reflexivity.
Qed.

Lemma classic_markers (document : JsValue) :
  has_marker_fields document \/ ~ has_marker_fields document.
Proof.
  assert (Hdec : forall name text,
            field document name = Some (JString text)
            \/ field document name <> Some (JString text)).
  { intros name text.
    destruct (field document name) as [[| | | | s | |] |];
      try (right; discriminate).
    destruct (String.eqb_spec s text) as [-> | Hne]; [left; reflexivity |].
    right. congruence. }
  unfold has_marker_fields.
  destruct (Hdec "apiVersion" "v1") as [Hv | Hv];
    destruct (Hdec "kind" "Config") as [Hk | Hk]; tauto.
Qed.

Lemma isValidKubeconfig_None_inv (base64 : string) :
  isValidKubeconfig atob yaml_load base64 = None ->
  exists decoded document,
    atob base64 = Return decoded /\ yaml_load decoded = Return document
    /\ has_marker_fields document.
Proof.
  intros Hvalid.
  destruct (atob base64) as [decoded | message] eqn:Hatob.
  - destruct (yaml_load decoded) as [document | message] eqn:Hyaml.
    + exists decoded, document. split; [reflexivity |]. split; [exact Hyaml |].
      destruct (classic_markers document) as [Hyes | Hno]; [exact Hyes |].
      rewrite (isValidKubeconfig_parsed atob yaml_load base64 decoded document
                 Hatob Hyaml Hno) in Hvalid.
      discriminate.
    + unfold isValidKubeconfig, isValidKubeconfig_try in Hvalid.
      rewrite Hatob in Hvalid. cbn [mbind Result_bind] in Hvalid.
      rewrite Hyaml in Hvalid. discriminate.
  - unfold isValidKubeconfig, isValidKubeconfig_try in Hvalid.
    rewrite Hatob in Hvalid. discriminate.
Qed.

End Registration.

(** X5. In dynamic-cluster mode the host is called exactly when the
    submitted text decodes and parses to a document carrying both markers;
    the one call then made is [setCluster] with the text as it was
    submitted (still encoded), the error is cleared and the dialog is
    closed. *)
Theorem handleSubmit_registers_iff_valid
    (atob : string -> DynamicClusters.Result string)
    (yaml_load : string -> DynamicClusters.Result DynamicClusters.JsValue)
    (st : DynamicClusters.State) :
  DynamicClusters.isDynamicClusterEnabled st = true ->
  let result := DynamicClusters.handleSubmit atob yaml_load st in
  (result.2 <> [] <->
   exists decoded document,
     atob (DynamicClusters.kubeconfig st) = DynamicClusters.Return decoded
     /\ yaml_load decoded = DynamicClusters.Return document
     /\ DynamicClusters.has_marker_fields document)
  /\ (result.2 <> [] ->
      result.2 = [DynamicClusters.SetCluster
                    (DynamicClusters.ByKubeconfig (DynamicClusters.kubeconfig st))]
      /\ DynamicClusters.error result.1 = None
      /\ DynamicClusters.open result.1 = false).
Proof.
  intros Hdynamic result. subst result.
  unfold DynamicClusters.handleSubmit.
  cbn [DynamicClusters.setError DynamicClusters.isDynamicClusterEnabled
       DynamicClusters.kubeconfig].
  rewrite Hdynamic, isValidKubeconfig_truthy.
  destruct (DynamicClusters.isValidKubeconfig atob yaml_load
              (DynamicClusters.kubeconfig st)) as [message |] eqn:Hvalid;
    cbn [fst snd].
  - split; [| intros Hcalls; contradiction].
    split; [intros Hcalls; contradiction |].
    intros (decoded & document & Hatob & Hyaml & Hmarkers).
    rewrite (isValidKubeconfig_markers atob yaml_load _ decoded document
               Hatob Hyaml Hmarkers) in Hvalid.
    discriminate.
  - split; [| intros _; repeat split].
    split; [intros _ | discriminate].
    apply (isValidKubeconfig_None_inv atob yaml_load), Hvalid.
Qed.

Lemma handleSubmit_registers_iff_valid_witness :
  let atob := fun _ : string =>
    DynamicClusters.Return "apiVersion: v1, kind: Config" in
  let yaml_load := fun _ : string =>
    DynamicClusters.Return
      (DynamicClusters.JObject
         [("apiVersion", DynamicClusters.JString "v1");
          ("kind", DynamicClusters.JString "Config")]) in
  let st :=
    {| DynamicClusters.open := true;
       DynamicClusters.kubeconfig := "YXBpVmVyc2lvbjogdjE=";
       DynamicClusters.name := ""; DynamicClusters.server := "";
       DynamicClusters.isDynamicClusterEnabled := true;
       DynamicClusters.error := Some "old" |} in
  (DynamicClusters.handleSubmit atob yaml_load st).2
  = [DynamicClusters.SetCluster (DynamicClusters.ByKubeconfig "YXBpVmVyc2lvbjogdjE=")]
  /\ DynamicClusters.error (DynamicClusters.handleSubmit atob yaml_load st).1 = None
  /\ DynamicClusters.open (DynamicClusters.handleSubmit atob yaml_load st).1 = false.
Proof.
  intros atob yaml_load st.
  destruct (handleSubmit_registers_iff_valid atob yaml_load st eq_refl)
    as [_ Hcall].
  apply Hcall. discriminate.
Defined.

(** X6. In dynamic-cluster mode, when decoding throws, or decoding
    succeeds and parsing throws, the error becomes
    ["Error decoding/parsing kubeconfig: "] followed by the message of
    what was thrown; the host is not called and the dialog is left as it
    was. *)
Theorem handleSubmit_reports_thrown_message
    (atob : string -> DynamicClusters.Result string)
    (yaml_load : string -> DynamicClusters.Result DynamicClusters.JsValue)
    (st : DynamicClusters.State) (message : string) :
  DynamicClusters.isDynamicClusterEnabled st = true ->
  atob (DynamicClusters.kubeconfig st) = DynamicClusters.Throw message
  \/ (exists decoded,
        atob (DynamicClusters.kubeconfig st) = DynamicClusters.Return decoded
        /\ yaml_load decoded = DynamicClusters.Throw message) ->
  let result := DynamicClusters.handleSubmit atob yaml_load st in
  DynamicClusters.error result.1
    = Some ("Error decoding/parsing kubeconfig: " +:+ message)
  /\ result.2 = []
  /\ DynamicClusters.open result.1 = DynamicClusters.open st.
Proof.
  intros Hdynamic Hthrown result. subst result.
  assert (Hvalid :
    DynamicClusters.isValidKubeconfig atob yaml_load (DynamicClusters.kubeconfig st)
    = Some ("Error decoding/parsing kubeconfig: " +:+ message)).
  { unfold DynamicClusters.isValidKubeconfig, DynamicClusters.isValidKubeconfig_try.
    destruct Hthrown as [-> | (decoded & -> & Hyaml)];
      cbn [mbind DynamicClusters.Result_bind]; [reflexivity |].
    rewrite Hyaml. reflexivity. }
  unfold DynamicClusters.handleSubmit.
  cbn [DynamicClusters.setError DynamicClusters.isDynamicClusterEnabled
       DynamicClusters.kubeconfig].
  rewrite Hdynamic, isValidKubeconfig_truthy, Hvalid. repeat split.
Qed.

Lemma handleSubmit_reports_thrown_message_witness :
  let atob := fun _ : string =>
    DynamicClusters.Throw "The string to be decoded is not correctly encoded." in
  let yaml_load := fun _ : string =>
    DynamicClusters.Return DynamicClusters.JNull in
  let st :=
    {| DynamicClusters.open := true;
       DynamicClusters.kubeconfig := "%%%";
       DynamicClusters.name := ""; DynamicClusters.server := "";
       DynamicClusters.isDynamicClusterEnabled := true;
       DynamicClusters.error := None |} in
  DynamicClusters.error (DynamicClusters.handleSubmit atob yaml_load st).1
  = Some "Error decoding/parsing kubeconfig: The string to be decoded is not correctly encoded.".
Proof.
  intros atob yaml_load st.
  destruct (handleSubmit_reports_thrown_message atob yaml_load st
              "The string to be decoded is not correctly encoded." eq_refl)
    as (Herror & _).
  - left. reflexivity.
  - exact Herror.
Defined.

(** X7. Outside dynamic-cluster mode nothing is validated: whatever the
    kubeconfig cell holds and whatever the decoder and the parser would
    do, the host is called once with the name and the server as they are
    (empty texts included), the error is cleared and the dialog closed. *)
Theorem handleSubmit_by_name_and_server
    (atob atob' : string -> DynamicClusters.Result string)
    (yaml_load yaml_load' :
       string -> DynamicClusters.Result DynamicClusters.JsValue)
    (st : DynamicClusters.State) :
  DynamicClusters.isDynamicClusterEnabled st = false ->
  let result := DynamicClusters.handleSubmit atob yaml_load st in
  result.2 = [DynamicClusters.SetCluster
                (DynamicClusters.ByNameAndServer
                   (DynamicClusters.name st) (DynamicClusters.server st))]
  /\ DynamicClusters.error result.1 = None
  /\ DynamicClusters.open result.1 = false
  /\ DynamicClusters.handleSubmit atob' yaml_load' st = result
  /\ forall text,
       (DynamicClusters.handleSubmit atob yaml_load
          {| DynamicClusters.open := DynamicClusters.open st;
             DynamicClusters.kubeconfig := text;
             DynamicClusters.name := DynamicClusters.name st;
             DynamicClusters.server := DynamicClusters.server st;
             DynamicClusters.isDynamicClusterEnabled := false;
             DynamicClusters.error := DynamicClusters.error st |}).2
       = result.2.
Proof.
  intros Hstatic result. subst result.
  unfold DynamicClusters.handleSubmit.
  cbn [DynamicClusters.setError DynamicClusters.isDynamicClusterEnabled
       DynamicClusters.kubeconfig DynamicClusters.name DynamicClusters.server].
  rewrite Hstatic. repeat split.
Qed.

Lemma handleSubmit_by_name_and_server_witness :
  (DynamicClusters.handleSubmit
     (fun _ => DynamicClusters.Throw "unused")
     (fun _ => DynamicClusters.Throw "unused")
     (DynamicClusters.config_settled None DynamicClusters.initial)).2
  = [DynamicClusters.SetCluster (DynamicClusters.ByNameAndServer "" "")].
Proof.
  destruct (handleSubmit_by_name_and_server
              (fun _ => DynamicClusters.Throw "unused")
              (fun _ => DynamicClusters.Throw "unused")
              (fun _ => DynamicClusters.Throw "unused")
              (fun _ => DynamicClusters.Throw "unused")
              (DynamicClusters.config_settled None DynamicClusters.initial)
              eq_refl) as (Hcalls & _).
  exact Hcalls.
Defined.

(** X8. A submission reads the error of an earlier attempt nowhere and
    writes only two cells: the kubeconfig, name, server and mode cells are
    as before; the error afterwards is the validation error of this
    submission when the host was not called and none when it was; the
    dialog is closed exactly when the host was called. *)
Theorem handleSubmit_frame
    (atob : string -> DynamicClusters.Result string)
    (yaml_load : string -> DynamicClusters.Result DynamicClusters.JsValue)
    (st : DynamicClusters.State) (previous : option string) :
  let result := DynamicClusters.handleSubmit atob yaml_load st in
  DynamicClusters.handleSubmit atob yaml_load
    (DynamicClusters.setError previous st) = result
  /\ DynamicClusters.kubeconfig result.1 = DynamicClusters.kubeconfig st
  /\ DynamicClusters.name result.1 = DynamicClusters.name st
  /\ DynamicClusters.server result.1 = DynamicClusters.server st
  /\ DynamicClusters.isDynamicClusterEnabled result.1
     = DynamicClusters.isDynamicClusterEnabled st
  /\ (result.2 = [] ->
      DynamicClusters.isDynamicClusterEnabled st = true
      /\ DynamicClusters.open result.1 = DynamicClusters.open st
      /\ DynamicClusters.error result.1
         = DynamicClusters.isValidKubeconfig atob yaml_load
             (DynamicClusters.kubeconfig st)
      /\ DynamicClusters.error result.1 <> None)
  /\ (result.2 <> [] ->
      DynamicClusters.open result.1 = false
      /\ DynamicClusters.error result.1 = None
      /\ exists request, result.2 = [DynamicClusters.SetCluster request]).
Proof.
  intros result. subst result.
  unfold DynamicClusters.handleSubmit.
  cbn [DynamicClusters.setError DynamicClusters.isDynamicClusterEnabled
       DynamicClusters.kubeconfig DynamicClusters.name DynamicClusters.server].
  destruct (DynamicClusters.isDynamicClusterEnabled st) eqn:Hflag.
  - rewrite isValidKubeconfig_truthy.
    destruct (DynamicClusters.isValidKubeconfig atob yaml_load
                (DynamicClusters.kubeconfig st)) as [message |];
      cbn [fst snd DynamicClusters.setError DynamicClusters.handleClose
           DynamicClusters.kubeconfig DynamicClusters.name
           DynamicClusters.server DynamicClusters.isDynamicClusterEnabled
           DynamicClusters.open DynamicClusters.error];
      (split; [reflexivity |]); (split; [reflexivity |]);
      (split; [reflexivity |]); (split; [reflexivity |]);
      (split; [exact Hflag |]); split; intros Hcalls.
    + split; [reflexivity |]. split; [reflexivity |].
      split; [reflexivity | discriminate].
    + contradiction.
    + discriminate Hcalls.
    + split; [reflexivity |]. split; [reflexivity |]. eexists. reflexivity.
  - cbn [fst snd DynamicClusters.setError DynamicClusters.handleClose
         DynamicClusters.kubeconfig DynamicClusters.name
         DynamicClusters.server DynamicClusters.isDynamicClusterEnabled
         DynamicClusters.open DynamicClusters.error].
    (split; [reflexivity |]); (split; [reflexivity |]);
      (split; [reflexivity |]); (split; [reflexivity |]);
      (split; [exact Hflag |]); split; intros Hcalls.
    + discriminate Hcalls.
    + split; [reflexivity |]. split; [reflexivity |]. eexists. reflexivity.
Qed.

(** X9. When the host rejects the registration, the page is not reloaded
    and the error cell takes the text about the kubeconfig, or about the
    name and server, followed by the message of the rejection. The handler
    has closed the dialog by then, so the error line sits in a closed
    modal; opening the dialog again shows the same line. When the host
    accepts, the page is reloaded and the state is left alone. *)
Theorem setCluster_rejection_behind_closed_dialog
    (atob : string -> DynamicClusters.Result string)
    (yaml_load : string -> DynamicClusters.Result DynamicClusters.JsValue)
    (st : DynamicClusters.State) (request : DynamicClusters.ClusterRequest)
    (message : string) :
  (DynamicClusters.handleSubmit atob yaml_load st).2
  = [DynamicClusters.SetCluster request] ->
  let submitted := (DynamicClusters.handleSubmit atob yaml_load st).1 in
  let rejected :=
    DynamicClusters.setCluster_settled request (Some message) submitted in
  let text :=
    match request with
    | DynamicClusters.ByKubeconfig _ =>
        "Error setting cluster. Please check the provided kubeconfig: "
    | DynamicClusters.ByNameAndServer _ _ =>
        "Error setting cluster. Please check the provided name and server: "
    end +:+ message in
  rejected.2 = []
  /\ DynamicClusters.render rejected.1
     = {| DynamicClusters.modal_open := false;
          DynamicClusters.stateless_line :=
            DynamicClusters.stateless_line (DynamicClusters.render st);
          DynamicClusters.text_fields :=
            DynamicClusters.text_fields (DynamicClusters.render st);
          DynamicClusters.error_line := Some text |}
  /\ DynamicClusters.error_line
       (DynamicClusters.render (DynamicClusters.handleOpen rejected.1))
     = Some text
  /\ DynamicClusters.modal_open
       (DynamicClusters.render (DynamicClusters.handleOpen rejected.1)) = true
  /\ DynamicClusters.setCluster_settled request None submitted
     = (submitted, [DynamicClusters.Reload]).
Proof.
  intros Hcalls submitted rejected text.
  assert (Hsubmitted :
    submitted = DynamicClusters.handleClose (DynamicClusters.setError None st)).
  { subst submitted. revert Hcalls. unfold DynamicClusters.handleSubmit.
    cbn [DynamicClusters.setError DynamicClusters.isDynamicClusterEnabled
         DynamicClusters.kubeconfig].
    destruct (DynamicClusters.isDynamicClusterEnabled st); [| reflexivity].
    destruct (JS.truthy_string _); [discriminate | reflexivity]. }
  subst rejected text. rewrite Hsubmitted. clear Hsubmitted Hcalls submitted.
  assert (Htruthy : forall prefix c,
            JS.truthy_string (Some (String c prefix +:+ message)) = true)
    by reflexivity.
  destruct request; cbn [DynamicClusters.setCluster_settled fst snd];
    unfold DynamicClusters.render;
    cbn [DynamicClusters.setError DynamicClusters.handleClose
         DynamicClusters.handleOpen DynamicClusters.open
         DynamicClusters.error DynamicClusters.isDynamicClusterEnabled
         DynamicClusters.kubeconfig DynamicClusters.name DynamicClusters.server
         DynamicClusters.error_line DynamicClusters.modal_open
         DynamicClusters.stateless_line DynamicClusters.text_fields];
    rewrite Htruthy; repeat split.
Qed.

Lemma setCluster_rejection_behind_closed_dialog_witness :
  let atob := fun _ : string =>
    @DynamicClusters.Throw string "unused" in
  let yaml_load := fun _ : string =>
    @DynamicClusters.Throw DynamicClusters.JsValue "unused" in
  let st := DynamicClusters.handleOpen DynamicClusters.initial in
  DynamicClusters.render
    (DynamicClusters.setCluster_settled
       (DynamicClusters.ByNameAndServer "" "") (Some "Bad Request")
       (DynamicClusters.handleSubmit atob yaml_load st).1).1
  = {| DynamicClusters.modal_open := false;
       DynamicClusters.stateless_line := "Stateless clusters enabled: false";
       DynamicClusters.text_fields := [("Name", ""); ("Server", "")];
       DynamicClusters.error_line :=
         Some "Error setting cluster. Please check the provided name and server: Bad Request" |}.
Proof.
  intros atob yaml_load st.
  destruct (setCluster_rejection_behind_closed_dialog atob yaml_load st
              (DynamicClusters.ByNameAndServer "" "") "Bad Request" eq_refl)
    as (_ & Hrender & _).
  exact Hrender.
Defined.

(** ** Columns, rows and cells of the table *)

Lemma toString_of_nat_inj (i j : nat) :
  JS.toString (Z.of_nat i) = JS.toString (Z.of_nat j) -> i = j.
Proof.
  intros Heq. apply Nat2Z.inj.
  assert (Hsome : Some (Z.of_nat i) = Some (Z.of_nat j))
    by (rewrite <- !Number_toString, Heq; reflexivity).
  congruence.
Qed.

(** X10. The columns handed to the grid engine are the given ones in the
    same order and number, each with an id and a header: a given id is
    kept, a missing one becomes the decimal index of the column, a missing
    or empty header becomes the empty text. The ids are pairwise different
    when the given ids are and none of them spells a number. *)
Theorem tableColumns_ids {RowItem Num : Type}
    (props : @Table.TableProps RowItem Num) :
  length (Table.tableColumns props) = length (Table.columns props)
  /\ (forall i column,
        Table.columns props !! i = Some column ->
        Table.tableColumns props !! i
        = Some {| Table.id :=
                    Some (default (JS.toString (Z.of_nat i)) (Table.id column));
                  Table.header := Some (JS.or_string (Table.header column) "");
                  Table.gridTemplate := Table.gridTemplate column |})
  /\ ((forall i j ci cj s,
         Table.columns props !! i = Some ci ->
         Table.columns props !! j = Some cj ->
         Table.id ci = Some s -> Table.id cj = Some s -> i = j) ->
      (forall i column s,
         Table.columns props !! i = Some column ->
         Table.id column = Some s -> JS.Number s = None) ->
      NoDup (Table.id <$> Table.tableColumns props)).
Proof.
  unfold Table.tableColumns.
  split; [apply length_imap |].
  split; [intros i column Hi; rewrite list_lookup_imap, Hi; reflexivity |].
  intros Hdistinct Hwords. apply NoDup_alt. intros i j x Hi Hj.
  rewrite list_lookup_fmap, list_lookup_imap in Hi, Hj.
  destruct (Table.columns props !! i) as [ci |] eqn:Hci; [| discriminate].
  destruct (Table.columns props !! j) as [cj |] eqn:Hcj; [| discriminate].
  cbn in Hi, Hj. rewrite <- Hj in Hi. clear Hj x.
  injection Hi as Hid.
  destruct (Table.id ci) as [si |] eqn:Hsi, (Table.id cj) as [sj |] eqn:Hsj;
    cbn [from_option] in Hid; unfold id in Hid.
  - subst sj. exact (Hdistinct i j ci cj si Hci Hcj Hsi Hsj).
  - pose proof (Hwords i ci si Hci Hsi) as Hword.
    rewrite Hid, Number_toString in Hword. discriminate.
  - pose proof (Hwords j cj sj Hcj Hsj) as Hword.
    rewrite <- Hid, Number_toString in Hword. discriminate.
  - apply toString_of_nat_inj, Hid.
Qed.

Lemma tableColumns_ids_witness :
  NoDup (Table.id <$> Table.tableColumns Table.layout_example).
Proof.
  destruct (tableColumns_ids Table.layout_example) as (_ & _ & Hnodup).
  apply Hnodup.
  - intros [| [| [| i]]] j ci cj s Hi Hj Hsi; cbn in Hi; try discriminate;
      injection Hi as <-; discriminate Hsi.
  - intros [| [| [| i]]] column s Hi Hs; cbn in Hi; try discriminate;
      injection Hi as <-; discriminate Hs.
Defined.

(** X11. The grid template looks a column up in [columnVisibility] under
    the id the caller gave, not under the index the engine's column gets:
    when no column has an id, either all of them count as hidden (the map
    says [false] under the name ["undefined"]) or none does, whatever the
    map says under the indexes. *)
Theorem visible_columns_without_ids {RowItem Num : Type}
    (props : @Table.TableProps RowItem Num) :
  Forall (fun column => Table.id column = None) (Table.columns props) ->
  let hidden := Table.columnVisibility props ≫= (fun v => v !! "undefined") in
  (hidden = Some false -> Table.visible_columns props = [])
  /\ (hidden <> Some false -> Table.visible_columns props = Table.columns props).
Proof.
  intros Hnone hidden. unfold Table.visible_columns.
  assert (Hhidden : forall column,
            Table.id column = None ->
            Table.isHidden props column
            = match hidden with Some false => true | _ => false end).
  { intros column Hid. unfold Table.isHidden. subst hidden. rewrite Hid.
    destruct (Table.columnVisibility props) as [v |]; reflexivity. }
  split; intros Hcase.
  - induction Hnone as [| column columns Hid _ IH]; [reflexivity |].
    cbn [List.filter]. rewrite (Hhidden column Hid), Hcase. exact IH.
  - induction Hnone as [| column columns Hid _ IH]; [reflexivity |].
    cbn [List.filter]. rewrite (Hhidden column Hid).
    destruct hidden as [[|] |]; cbn [negb]; try (f_equal; exact IH).
    contradiction.
Qed.

Lemma visible_columns_without_ids_witness :
  Table.visible_columns
    {| Table.columns := Table.columns Table.layout_example;
       Table.data := Some [tt];
       Table.emptyMessage := Table.RUndefined;
       Table.errorMessage := Table.RUndefined;
       Table.reflectInURL := Table.ReflectUndefined;
       Table.initialPage := None; Table.rowsPerPage := None;
       Table.filterFunction := None; Table.loading := None;
       Table.enableRowActions := None;
       Table.enableRowSelection := Table.SelectionUndefined;
       Table.columnVisibility := Some {[ "0" := false; "1" := false ]} |}
  = Table.columns Table.layout_example.
Proof.
  refine (proj2 (visible_columns_without_ids _ _) _).
  - repeat constructor.
  - vm_compute. discriminate.
Defined.

Lemma filter_rejecting_all {A : Type} (f : A -> bool) (l : list A) :
  (forall x, In x l -> f x = false) -> List.filter f l = [].
Proof.
  induction l as [| x l IH]; intros Hall; [reflexivity |].
  cbn [List.filter]. rewrite (Hall x (or_introl eq_refl)).
  apply IH. intros y Hy. apply Hall. right. exact Hy.
Qed.

(** X12. Whether the table is empty is decided on the [data] prop, before
    the filter function is applied: a dataset with rows all of which the
    filter rejects is not replaced by the empty-state message; the grid is
    rendered with no rows, and with pagination off when the first
    page-size option is not negative. *)
Theorem Table_filtered_to_nothing {RowItem Num : Type}
    (Num_toString : Num -> string)
    (props : @Table.TableProps RowItem Num) (env : Table.Env) (h : Table.Hooks)
    (f : RowItem -> bool) :
  Table.truthy_node (Table.errorMessage props) = false ->
  JS.truthy_flag (Table.loading props) = false ->
  default [] (Table.data props) <> [] ->
  Table.filterFunction props = Some f ->
  (forall row, In row (default [] (Table.data props)) -> f row = false) ->
  exists options,
    Table.Table Num_toString props env h
    = Table.GridView options (Table.gridTemplateColumns Num_toString props)
    /\ Table.grid_data options = []
    /\ (forall first,
          head (Table.rowsPerPageOptions props env) = Some first ->
          0 <= first -> Table.grid_enablePagination options = false).
Proof.
  intros Herror Hloading Hrows Hfilter Hreject.
  assert (Hdata : Table.tableData props = []).
  { unfold Table.tableData. rewrite Hfilter.
    apply filter_rejecting_all, Hreject. }
  unfold Table.Table. rewrite Herror, Hloading.
  destruct (Table.data_is_empty props) eqn:Hempty.
  { apply data_is_empty_iff in Hempty. contradiction. }
  cbn [andb]. eexists. split; [reflexivity |].
  cbn [Table.grid_data Table.grid_enablePagination].
  split; [exact Hdata |].
  intros first Hfirst Hnonneg. unfold Table.enablePagination.
  rewrite Hfirst, Hdata. cbn [length]. apply Z.ltb_ge. exact Hnonneg.
Qed.

Lemma Table_filtered_to_nothing_witness :
  exists options,
    Table.Table JS.toString
      (Table.with_filterFunction (Some (fun _ : unit => false))
         Table.layout_example)
      Table.plain_env
      (Table.mount Table.layout_example Table.plain_env ∅)
    = Table.GridView options "0.05fr 1fr 2fr min-content"
    /\ Table.grid_data options = []
    /\ Table.grid_enablePagination options = false.
Proof.
  destruct (Table_filtered_to_nothing JS.toString
              (Table.with_filterFunction (Some (fun _ : unit => false))
                 Table.layout_example)
              Table.plain_env
              (Table.mount Table.layout_example Table.plain_env ∅)
              (fun _ => false))
    as (options & Hview & Hdata & Hpagination);
    [reflexivity | reflexivity | discriminate | reflexivity | reflexivity |].
  exists options. split; [exact Hview |]. split; [exact Hdata |].
  apply (Hpagination 15); [reflexivity | lia].
Defined.

(** X13. A filter function can switch pagination off but never on: when
    pagination is enabled with a filter, it is enabled for the same props
    without one. *)
Theorem enablePagination_filter_monotone {RowItem Num : Type}
    (props : @Table.TableProps RowItem Num) (env : Table.Env)
    (f : RowItem -> bool) :
  Table.enablePagination (Table.with_filterFunction (Some f) props) env = true ->
  Table.enablePagination (Table.with_filterFunction None props) env = true.
Proof.
  unfold Table.enablePagination, Table.rowsPerPageOptions, Table.tableData.
  cbn [Table.with_filterFunction Table.rowsPerPage Table.filterFunction Table.data].
  destruct (head (default (Table.storeRowsPerPageOptions env)
                    (Table.rowsPerPage props))) as [first |]; [| discriminate].
  rewrite !Z.ltb_lt.
  pose proof (List.filter_length_le f (default [] (Table.data props))).
  lia.
Qed.

Lemma enablePagination_filter_monotone_witness :
  Table.enablePagination
    (Table.with_filterFunction None
       (Table.plain_table [] (Some (replicate 20 tt)))) Table.plain_env
  = true.
Proof.
  apply (enablePagination_filter_monotone
           (Table.plain_table [] (Some (replicate 20 tt))) Table.plain_env
           (fun _ => true)).
  reflexivity.
Defined.

(** X14. The pagination handler and the pagination state handed to the
    grid engine undo each other's shift by one: on a table with rows,
    after the setter calls of the handler, the state handed to the engine
    is the engine's update applied to the state handed to it before; the
    rows and the rest of the view are as before. *)
Theorem onPaginationChange_round_trip {RowItem Num : Type}
    (Num_toString : Num -> string)
    (props : @Table.TableProps RowItem Num) (env : Table.Env) (h : Table.Hooks)
    (updater : Table.Pagination -> Table.Pagination) :
  default [] (Table.data props) <> [] ->
  let h' := Table.dispatch (Table.onPaginationChange props h updater) h in
  Table.state_pagination h' = updater (Table.state_pagination h)
  /\ Table.search h' = Table.search h
  /\ forall options template,
       Table.Table Num_toString props env h = Table.GridView options template ->
       exists options',
         Table.Table Num_toString props env h' = Table.GridView options' template
         /\ Table.grid_pagination options' = updater (Table.grid_pagination options)
         /\ Table.grid_data options' = Table.grid_data options
         /\ Table.grid_columns options' = Table.grid_columns options
         /\ Table.grid_enablePagination options'
            = Table.grid_enablePagination options.
Proof.
  intros Hrows h'.
  assert (Hempty : Table.data_is_empty props = false).
  { destruct (Table.data_is_empty props) eqn:Hempty; [| reflexivity].
    apply data_is_empty_iff in Hempty. contradiction. }
  assert (Hnext : Table.state_pagination h' = updater (Table.state_pagination h)).
  { subst h'. unfold Table.onPaginationChange. rewrite Hempty.
    unfold Table.state_pagination.
    cbn [Table.dispatch foldl Table.apply_update Table.zeroIndexPage Table.perPage].
    destruct (updater _) as [index size].
    cbn [Table.pageIndex Table.pageSize]. f_equal. lia. }
  split; [exact Hnext |]. split.
  { subst h'. unfold Table.onPaginationChange. rewrite Hempty. reflexivity. }
  intros options template. unfold Table.Table. rewrite Hempty.
  destruct (Table.truthy_node (Table.errorMessage props)); [discriminate |].
  destruct (JS.truthy_flag (Table.loading props)); [discriminate |].
  cbn [andb]. intros [= <- <-]. eexists. split; [reflexivity |].
  cbn [Table.grid_pagination Table.grid_data Table.grid_columns
       Table.grid_enablePagination].
  split; [exact Hnext | repeat split].
Qed.

Lemma onPaginationChange_round_trip_witness :
  let h := Table.mount Table.layout_example Table.plain_env ∅ in
  let nextPage := fun p : Table.Pagination =>
    {| Table.pageIndex := Table.pageIndex p + 1;
       Table.pageSize := Table.pageSize p |} in
  Table.state_pagination
    (Table.dispatch (Table.onPaginationChange Table.layout_example h nextPage) h)
  = {| Table.pageIndex := 1; Table.pageSize := 15 |}.
Proof.
  intros h nextPage.
  destruct (onPaginationChange_round_trip JS.toString Table.layout_example
              Table.plain_env h nextPage) as (Hnext & _); [discriminate |].
  rewrite Hnext. reflexivity.
Defined.

(** ** Memoised head cells *)

Lemma sorting_eqb_eq (a b : option string) :
  Table.sorting_eqb a b = true <-> a = b.
Proof.
  destruct a as [x |], b as [y |]; cbn; try (split; congruence).
  rewrite String.eqb_eq. split; congruence.
Qed.

Lemma MemoHeadCell_propsAreEqual_spec (a b : Table.HeadCellProps) :
  Table.MemoHeadCell_propsAreEqual a b = true
  <-> Table.head_column_id a = Table.head_column_id b
      /\ Table.head_sorting a = Table.head_sorting b
      /\ Table.head_isFiltered a = Table.head_isFiltered b
      /\ Table.head_showColumnFilters a = Table.head_showColumnFilters b
      /\ (Table.head_column_id a = "mrt-row-select" ->
          Table.head_selected a = Table.head_selected b).
Proof.
  unfold Table.MemoHeadCell_propsAreEqual.
  rewrite !andb_true_iff, String.eqb_eq, sorting_eqb_eq, !Bool.eqb_true_iff.
  destruct (String.eqb_spec (Table.head_column_id a) "mrt-row-select") as [Hsel | Hsel].
  - rewrite String.eqb_eq. tauto.
  - tauto.
Qed.

(** X15. The comparison that decides whether a head cell is rendered
    again is an equivalence on the props it reads, and the [selected]
    prop takes part in it only for the row-selection column: two sets of
    props that differ in [selected] alone are equal for every other
    column. *)
Theorem MemoHeadCell_propsAreEqual_equivalence :
  (forall a, Table.MemoHeadCell_propsAreEqual a a = true)
  /\ (forall a b,
        Table.MemoHeadCell_propsAreEqual a b = true ->
        Table.MemoHeadCell_propsAreEqual b a = true)
  /\ (forall a b c,
        Table.MemoHeadCell_propsAreEqual a b = true ->
        Table.MemoHeadCell_propsAreEqual b c = true ->
        Table.MemoHeadCell_propsAreEqual a c = true)
  /\ (forall id sorting isFiltered showColumnFilters selected selected',
        Table.MemoHeadCell_propsAreEqual
          {| Table.head_column_id := id; Table.head_sorting := sorting;
             Table.head_isFiltered := isFiltered;
             Table.head_selected := selected;
             Table.head_showColumnFilters := showColumnFilters |}
          {| Table.head_column_id := id; Table.head_sorting := sorting;
             Table.head_isFiltered := isFiltered;
             Table.head_selected := selected';
             Table.head_showColumnFilters := showColumnFilters |}
        = true
        <-> (id <> "mrt-row-select" \/ selected = selected')).
Proof.
  split; [| split; [| split]].
  - intros a. apply MemoHeadCell_propsAreEqual_spec. tauto.
  - intros a b Hab. apply MemoHeadCell_propsAreEqual_spec in Hab.
    apply MemoHeadCell_propsAreEqual_spec.
    destruct Hab as (Hid & Hsort & Hfilter & Hshow & Hsel).
    repeat split; try congruence.
    intros Hb. symmetry. apply Hsel. congruence.
  - intros a b c Hab Hbc. apply MemoHeadCell_propsAreEqual_spec in Hab, Hbc.
    apply MemoHeadCell_propsAreEqual_spec.
    destruct Hab as (Hid & Hsort & Hfilter & Hshow & Hsel).
    destruct Hbc as (Hid' & Hsort' & Hfilter' & Hshow' & Hsel').
    repeat split; try congruence.
    intros Ha. rewrite (Hsel Ha). apply Hsel'. congruence.
  - intros id sorting isFiltered showColumnFilters selected selected'.
    rewrite MemoHeadCell_propsAreEqual_spec.
    cbn [Table.head_column_id Table.head_sorting Table.head_isFiltered
         Table.head_selected Table.head_showColumnFilters].
    destruct (String.eqb_spec id "mrt-row-select") as [Hsel | Hsel]; tauto.
Qed.

(** ** Renders in general *)



Lemma search_dispatch (us : list Table.Update) (h : Table.Hooks) :
  Table.search (Table.dispatch us h) = Table.search h.
Proof.
  unfold Table.dispatch. revert h.
  induction us as [| u us IH]; intros h; [reflexivity |].
  cbn [foldl]. rewrite IH. destruct u; reflexivity.
Qed.

Section AnyKeys.
Import Table.
Variable k : Keys.

Lemma commit_search (h : Hooks) :
  search (commit k h)
  = (if changed dep_pageSize (seen h) (deps_of k h)
     then URLState.push (key_perPage k) (prefix k) (perPage h)
     else fun s => s)
      ((if changed dep_page (seen h) (deps_of k h)
        then URLState.push (key_p k) (prefix k) (page h)
        else fun s => s) (search h)).
Proof.
  unfold commit. rewrite search_dispatch. cbn [search].
  unfold usePageURLState_effects, useURLState_effects, enqueue.
  destruct (changed dep_urlPage _ _), (changed dep_page _ _),
    (changed dep_zeroIndexPage _ _), (changed dep_urlPerPage _ _),
    (changed dep_pageSize _ _);
    cbn [fst snd];
    repeat match goal with
           | |- context [URLState.pull ?s ?key ?p ?v] =>
               destruct (URLState.pull s key p v)
           end;
    reflexivity.
Qed.

Lemma commit_seen_deps (h : Hooks) : seen (commit k h) = Some (deps_of k h).
Proof. unfold commit. rewrite seen_dispatch. reflexivity. Qed.

Lemma commit_zeroIndexPage (h : Hooks) :
  zeroIndexPage (commit k h)
  = if changed dep_page (seen h) (deps_of k h) then page h - 1
    else zeroIndexPage h.
Proof.
  unfold commit, usePageURLState_effects, useURLState_effects, enqueue.
  destruct (changed dep_urlPage _ _), (changed dep_page _ _),
    (changed dep_zeroIndexPage _ _), (changed dep_urlPerPage _ _),
    (changed dep_pageSize _ _);
    cbn [fst snd];
    repeat match goal with
           | |- context [URLState.pull ?s ?key ?p ?v] =>
               destruct (URLState.pull s key p v)
           end;
    cbn [fst snd app dispatch foldl apply_update zeroIndexPage];
    try reflexivity;
    destruct (decide (page h - 1 ≠ zeroIndexPage h)); try reflexivity; lia.
Qed.

Lemma commit_page (h : Hooks) :
  page (commit k h)
  = if changed dep_zeroIndexPage (seen h) (deps_of k h)
    then zeroIndexPage h + 1
    else if changed dep_urlPage (seen h) (deps_of k h)
         then default (page h)
                (URLState.pull (search h) (key_p k) (prefix k) (page h))
         else page h.
Proof.
  unfold commit, usePageURLState_effects, useURLState_effects, enqueue.
  destruct (changed dep_urlPage _ _), (changed dep_page _ _),
    (changed dep_zeroIndexPage _ _), (changed dep_urlPerPage _ _),
    (changed dep_pageSize _ _);
    cbn [fst snd];
    repeat match goal with
           | |- context [URLState.pull ?s ?key ?p ?v] =>
               destruct (URLState.pull s key p v)
           end;
    reflexivity.
Qed.

Lemma commit_perPage (h : Hooks) :
  perPage (commit k h)
  = if changed dep_urlPerPage (seen h) (deps_of k h)
    then default (perPage h)
           (URLState.pull
              ((if changed dep_page (seen h) (deps_of k h)
                then URLState.push (key_p k) (prefix k) (page h)
                else fun s => s) (search h))
              (key_perPage k) (prefix k) (perPage h))
    else perPage h.
Proof.
  unfold commit, usePageURLState_effects, useURLState_effects, enqueue.
  destruct (changed dep_urlPage _ _), (changed dep_page _ _),
    (changed dep_zeroIndexPage _ _), (changed dep_urlPerPage _ _),
    (changed dep_pageSize _ _);
    cbn [fst snd];
    destruct (URLState.pull (search h) (key_p k) (prefix k) (page h));
    repeat (cbn [fst snd]; cbv beta iota;
            match goal with
            | |- context [URLState.pull ?s ?key ?p ?v] =>
                destruct (URLState.pull s key p v)
            end);
    reflexivity.
Qed.

Lemma settled_seen (h : Hooks) : settled k h -> seen h = Some (deps_of k h).
Proof. intros Hs. rewrite <- Hs at 1. apply commit_seen_deps. Qed.

Lemma renders_S (n : nat) (h : Hooks) :
  renders k (S n) h = commit k (renders k n h).
Proof. reflexivity. Qed.

(** The two cells after a render that saw both of them changed. *)
Lemma commit_swaps (h : Hooks) (d : Deps) :
  seen h = Some d ->
  dep_page d ≠ page h -> dep_zeroIndexPage d ≠ zeroIndexPage h ->
  page (commit k h) = zeroIndexPage h + 1
  /\ zeroIndexPage (commit k h) = page h - 1.
Proof.
  intros Hseen Hpage Hzero.
  rewrite commit_page, commit_zeroIndexPage, Hseen. unfold changed.
  cbn [deps_of dep_page dep_zeroIndexPage].
  rewrite !bool_decide_eq_true_2 by assumption. split; reflexivity.
Qed.
End AnyKeys.

(** X17. If a render finds that both the page cell and the internal index
    changed since the render before, and the two disagree, the two effects
    of [usePageURLState] overwrite each other from then on: every render
    swaps the pair, the values of the cells alternate with period two, and
    no render leaves the state settled. *)
Theorem hooks_swap_forever (k : Table.Keys) (h : Table.Hooks) (d : Table.Deps) :
  Table.seen h = Some d ->
  Table.dep_page d <> Table.page h ->
  Table.dep_zeroIndexPage d <> Table.zeroIndexPage h ->
  Table.zeroIndexPage h <> Table.page h - 1 ->
  forall n,
    let h' := Table.renders k n h in
    (if Nat.even n
     then Table.page h' = Table.page h
          /\ Table.zeroIndexPage h' = Table.zeroIndexPage h
     else Table.page h' = Table.zeroIndexPage h + 1
          /\ Table.zeroIndexPage h' = Table.page h - 1)
    /\ ~ Table.settled k h'.
Proof.
  intros Hseen Hpage Hzero Hdisagree n.
  assert (Hinv :
    exists d', Table.seen (Table.renders k n h) = Some d'
      /\ Table.dep_page d' <> Table.page (Table.renders k n h)
      /\ Table.dep_zeroIndexPage d' <> Table.zeroIndexPage (Table.renders k n h)
      /\ (if Nat.even n
          then Table.page (Table.renders k n h) = Table.page h
               /\ Table.zeroIndexPage (Table.renders k n h) = Table.zeroIndexPage h
          else Table.page (Table.renders k n h) = Table.zeroIndexPage h + 1
               /\ Table.zeroIndexPage (Table.renders k n h) = Table.page h - 1)).
  { induction n as [| n IH].
    - exists d. cbn. auto.
    - destruct IH as (d' & Hseen' & Hpage' & Hzero' & Hcells).
      rewrite renders_S.
      destruct (commit_swaps k _ d' Hseen' Hpage' Hzero') as [Hp Hz].
      exists (Table.deps_of k (Table.renders k n h)).
      split; [apply commit_seen_deps |].
      rewrite Hp, Hz. cbn [Table.deps_of Table.dep_page Table.dep_zeroIndexPage].
      rewrite Nat.even_succ, <- Nat.negb_even.
      destruct (Nat.even n); cbn [negb]; destruct Hcells as [-> ->];
        repeat split; lia. }
  destruct Hinv as (d' & Hseen' & Hpage' & _ & Hcells).
  split; [exact Hcells |].
  intros Hsettled. apply settled_seen in Hsettled.
  rewrite Hsettled in Hseen'. injection Hseen' as <-.
  apply Hpage'. reflexivity.
Qed.

Lemma hooks_swap_forever_witness :
  let k := Table.keys_of (Table.ReflectPrefix "x") in
  let settled :=
    Table.renders k 2
      (Table.mount Table.reflecting_example Table.plain_env ∅) in
  let h :=
    Table.dispatch [Table.SetZeroIndexPage (fun _ => 7)]
      (Table.commit k (Table.navigate "xp" "10" settled)) in
  (Table.page (Table.renders k 4 h), Table.zeroIndexPage (Table.renders k 4 h))
  = (10, 7)
  /\ (Table.page (Table.renders k 5 h), Table.zeroIndexPage (Table.renders k 5 h))
     = (8, 9).
Proof.
  intros k settled h.
  assert (Hseen : Table.seen h = Some (Table.deps_of k (Table.navigate "xp" "10" settled)))
    by (vm_compute; reflexivity).
  pose proof (hooks_swap_forever k h _ Hseen) as Hswap.
  destruct (Hswap ltac:(vm_compute; discriminate) ltac:(vm_compute; discriminate)
              ltac:(vm_compute; discriminate) 4%nat) as [[Hp4 Hz4] _].
  destruct (Hswap ltac:(vm_compute; discriminate) ltac:(vm_compute; discriminate)
              ltac:(vm_compute; discriminate) 5%nat) as [[Hp5 Hz5] _].
  split.
  - rewrite Hp4, Hz4. vm_compute. reflexivity.
  - rewrite Hp5, Hz5. vm_compute. reflexivity.
Defined.

Section NoReflection.
Import Table.
Variable k : Keys.
Hypothesis Hkey_p : key_p k = "".
Hypothesis Hkey_perPage : key_perPage k = "".

Lemma pull_noreflect (s : gmap string string) (p : string) (v : Z) :
  URLState.pull s "" p v = None.
Proof. reflexivity. Qed.

Lemma commit_noreflect (h : Hooks) :
  search (commit k h) = search h
  /\ perPage (commit k h) = perPage h
  /\ page (commit k h)
     = (if changed dep_zeroIndexPage (seen h) (deps_of k h)
        then zeroIndexPage h + 1 else page h).
Proof.
  split; [| split].
  - rewrite commit_search, Hkey_p, Hkey_perPage.
    destruct (changed dep_pageSize (seen h) (deps_of k h));
      destruct (changed dep_page (seen h) (deps_of k h)); reflexivity.
  - rewrite commit_perPage, Hkey_perPage, pull_noreflect.
    destruct (changed dep_urlPerPage (seen h) (deps_of k h)); reflexivity.
  - rewrite commit_page, Hkey_p, pull_noreflect.
    destruct (changed dep_zeroIndexPage (seen h) (deps_of k h));
      destruct (changed dep_urlPage (seen h) (deps_of k h)); reflexivity.
Qed.

Lemma changed_page_fmap (h : Hooks) :
  changed dep_page (seen h) (deps_of k h)
  = match dep_page <$> seen h with
    | Some p => bool_decide (p ≠ page h)
    | None => true
    end.
Proof. destruct (seen h); reflexivity. Qed.

Lemma changed_zero_fmap (h : Hooks) :
  changed dep_zeroIndexPage (seen h) (deps_of k h)
  = match dep_zeroIndexPage <$> seen h with
    | Some z => bool_decide (z ≠ zeroIndexPage h)
    | None => true
    end.
Proof. destruct (seen h); reflexivity. Qed.

(** Two states with the same cells, last seen with the same cells, have
    the same cells after any number of renders, whatever their URLs. *)
Lemma renders_noreflect_cells (n : nat) (h1 h2 : Hooks) :
  page h1 = page h2 -> zeroIndexPage h1 = zeroIndexPage h2 ->
  perPage h1 = perPage h2 ->
  dep_page <$> seen h1 = dep_page <$> seen h2 ->
  dep_zeroIndexPage <$> seen h1 = dep_zeroIndexPage <$> seen h2 ->
  page (renders k n h1) = page (renders k n h2)
  /\ zeroIndexPage (renders k n h1) = zeroIndexPage (renders k n h2)
  /\ perPage (renders k n h1) = perPage (renders k n h2)
  /\ dep_page <$> seen (renders k n h1) = dep_page <$> seen (renders k n h2)
  /\ dep_zeroIndexPage <$> seen (renders k n h1)
     = dep_zeroIndexPage <$> seen (renders k n h2).
Proof.
  intros Hp Hz Hs Hdp Hdz. induction n as [| n IH]; [auto 10 |].
  destruct IH as (IHp & IHz & IHs & IHdp & IHdz).
  rewrite !renders_S.
  destruct (commit_noreflect (renders k n h1)) as (_ & Hs1 & Hp1).
  destruct (commit_noreflect (renders k n h2)) as (_ & Hs2 & Hp2).
  rewrite Hs1, Hs2, Hp1, Hp2, !commit_zeroIndexPage, !commit_seen_deps.
  rewrite !changed_page_fmap, !changed_zero_fmap.
  rewrite IHp, IHz, IHs, IHdp, IHdz.
  cbn. rewrite IHp, IHz. auto 10.
Qed.
End NoReflection.

(** X16. A table whose [reflectInURL] is omitted or [false] passes empty
    keys to its hooks: no render writes the URL, and a change of the URL,
    under whatever parameter, has no influence on the page, the internal
    index and the page size that the renders produce. *)
Theorem no_reflection_leaves_url_alone (r : Table.ReflectInURL) :
  r = Table.ReflectUndefined \/ r = Table.ReflectBool false ->
  let k := Table.keys_of r in
  forall (h : Table.Hooks) (n : nat),
    Table.search (Table.renders k n h) = Table.search h
    /\ forall param value,
         let h' := Table.renders k n (Table.navigate param value h) in
         Table.page h' = Table.page (Table.renders k n h)
         /\ Table.zeroIndexPage h' = Table.zeroIndexPage (Table.renders k n h)
         /\ Table.perPage h' = Table.perPage (Table.renders k n h).
Proof.
  intros Hr k h n.
  assert (Hp : Table.key_p k = "") by (destruct Hr; subst; reflexivity).
  assert (Hs : Table.key_perPage k = "") by (destruct Hr; subst; reflexivity).
  split.
  - induction n as [| n IH]; [reflexivity |].
    rewrite renders_S.
    destruct (commit_noreflect k Hp Hs (Table.renders k n h)) as (-> & _).
    exact IH.
  - intros param value h'. subst h'.
    destruct (renders_noreflect_cells k Hp Hs n (Table.navigate param value h) h)
      as (Hpage & Hzero & Hsize & _); auto.
Qed.

Section PaginationEvents.
Import Table.
Variable pfx : string.
Let k : Keys := {| key_p := "p"; key_perPage := "perPage"; prefix := pfx |}.
Local Abbreviation fk := (URLState.fullKey "p" pfx).
Local Abbreviation fkS := (URLState.fullKey "perPage" pfx).

Lemma pull_perPage (srch : gmap string string) (v : string) (pp : Z) :
  srch !! fkS = Some v ->
  URLState.pull srch "perPage" pfx pp
  = match JS.Number v with
    | Some n => if decide (n ≠ pp) then Some n else None
    | None => None
    end.
Proof.
  intros Hv. unfold URLState.pull, URLState.getURLValue.
  cbn [String.eqb Ascii.eqb]. rewrite Hv. reflexivity.
Qed.

(** A render in which the URL asks for nothing, told by the cells. *)
Lemma commit_quiet (h : Hooks) (d : Deps) :
  seen h = Some d ->
  dep_urlPage d = search h !! fk
  \/ URLState.pull (search h) "p" pfx (page h) = None ->
  dep_urlPerPage d = search h !! fkS
  \/ URLState.pull (search h) "perPage" pfx (perPage h) = None ->
  search (commit k h)
  = (if bool_decide (dep_pageSize d ≠ perPage h)
     then <[fkS := JS.toString (perPage h)]>
     else fun s => s)
      ((if bool_decide (dep_page d ≠ page h)
        then <[fk := JS.toString (page h)]>
        else fun s => s) (search h))
  /\ page (commit k h)
     = (if bool_decide (dep_zeroIndexPage d ≠ zeroIndexPage h)
        then zeroIndexPage h + 1 else page h)
  /\ zeroIndexPage (commit k h)
     = (if bool_decide (dep_page d ≠ page h) then page h - 1
        else zeroIndexPage h)
  /\ perPage (commit k h) = perPage h
  /\ seen (commit k h) = Some (deps_of k h).
Proof.
  intros Hseen Hu Hs.
  rewrite commit_search, commit_page, commit_zeroIndexPage, commit_perPage,
    commit_seen_deps, Hseen.
  unfold changed.
  cbn [deps_of dep_urlPage dep_page dep_zeroIndexPage dep_urlPerPage
       dep_pageSize key_p key_perPage prefix k].
  split; [reflexivity |]. split; [| split; [reflexivity | split; [| reflexivity]]].
  - destruct (bool_decide (dep_zeroIndexPage d ≠ zeroIndexPage h)); [reflexivity |].
    destruct Hu as [Hu | Hu].
    + rewrite bool_decide_eq_false_2 by (intros Hn; apply Hn, Hu). reflexivity.
    + rewrite Hu. destruct (bool_decide _); reflexivity.
  - destruct Hs as [Hs | Hs].
    + rewrite bool_decide_eq_false_2 by (intros Hn; apply Hn, Hs). reflexivity.
    + destruct (bool_decide (dep_page d ≠ page h));
        rewrite ?(pull_push_perPage pfx), Hs;
        destruct (bool_decide _); reflexivity.
Qed.

Lemma deps_of_ext (h h' : Hooks) :
  search h = search h' -> page h = page h' ->
  zeroIndexPage h = zeroIndexPage h' -> perPage h = perPage h' ->
  deps_of k h = deps_of k h'.
Proof. unfold deps_of. intros -> -> -> ->. reflexivity. Qed.

(** The setter calls of a pagination event, followed by three renders. *)
Lemma pagination_event_converges (h : Hooks) (z' s' : Z) :
  settled k h -> consistent k h ->
  let h' :=
    renders k 3
      (dispatch [SetZeroIndexPage (fun _ => z'); SetPageSize s'] h) in
  settled k h' /\ consistent k h'
  /\ zeroIndexPage h' = z' /\ perPage h' = s' /\ page h' = z' + 1
  /\ (s' ≠ perPage h -> url_perPage k h' = Some (JS.toString s'))
  /\ (z' ≠ zeroIndexPage h -> url_page k h' = Some (JS.toString (z' + 1))).
Proof.
  intros Hsettled [Hz Hu].
  apply (settled_iff pfx) in Hsettled.
  assert (Hfk : forall v (m : gmap string string), <[fk := v]> m !! fk = Some v)
    by (intros; apply lookup_insert_eq).
  assert (HfkS : forall v (m : gmap string string), <[fk := v]> m !! fkS = m !! fkS)
    by (intros; apply lookup_insert_ne, (keys_differ pfx)).
  assert (HSk : forall v (m : gmap string string), <[fkS := v]> m !! fkS = Some v)
    by (intros; apply lookup_insert_eq).
  assert (HSfk : forall v (m : gmap string string), <[fkS := v]> m !! fk = m !! fk).
  { intros. apply lookup_insert_ne. intros Heq. symmetry in Heq.
    revert Heq. apply (keys_differ pfx). }
  unfold url_page in Hu. cbn [key_p prefix k] in Hu.
  set (h0 := dispatch [SetZeroIndexPage (fun _ => z'); SetPageSize s'] h).
  assert (E0 : search h0 = search h /\ page h0 = page h
               /\ zeroIndexPage h0 = z' /\ perPage h0 = s'
               /\ seen h0 = Some (deps_of k h)).
  { subst h0. cbn. rewrite Hsettled. auto. }
  destruct E0 as (E0s & E0p & E0z & E0pp & E0seen).
  (* first render *)
  set (h1 := commit k h0).
  destruct (commit_quiet h0 _ E0seen) as (E1s & E1p & E1z & E1pp & E1seen).
  { left. cbn [deps_of dep_urlPage key_p prefix k]. rewrite E0s. reflexivity. }
  { left. cbn [deps_of dep_urlPerPage key_perPage prefix k]. rewrite E0s.
    reflexivity. }
  fold h1 in E1s, E1p, E1z, E1pp, E1seen.
  cbn [deps_of dep_page dep_zeroIndexPage dep_pageSize] in E1s, E1p, E1z.
  rewrite E0s, E0p, E0z, E0pp in *.
  rewrite (bool_decide_eq_false_2 (page h ≠ page h)) in E1s, E1z
    by (intros Hn; apply Hn; reflexivity).
  assert (E1p' : page h1 = z' + 1).
  { rewrite E1p. case_bool_decide; [reflexivity | ].
    lia. }
  clear E1p.
  (* second render *)
  set (h2 := commit k h1).
  destruct (commit_quiet h1 _ E1seen) as (E2s & E2p & E2z & E2pp & E2seen).
  { left. cbn [deps_of dep_urlPage key_p prefix k]. rewrite E0s, E1s.
    case_bool_decide; [rewrite HSfk |]; reflexivity. }
  { cbn [deps_of dep_urlPerPage key_perPage prefix k]. rewrite E0s, E1s, E1pp.
    case_bool_decide; [right | left; reflexivity].
    rewrite (pull_perPage _ (JS.toString s')) by apply HSk.
    rewrite Number_toString.
    destruct (decide (s' ≠ s')) as [Hne | _]; [| reflexivity].
    exfalso. apply Hne. reflexivity. }
  fold h2 in E2s, E2p, E2z, E2pp, E2seen.
  cbn [deps_of dep_page dep_zeroIndexPage dep_pageSize] in E2s, E2p, E2z.
  rewrite E0p, E0z, E0pp, E1p', E1z, E1pp in *.
  rewrite (bool_decide_eq_false_2 (z' ≠ z')) in E2p
    by (intros Hn; apply Hn; reflexivity).
  rewrite (bool_decide_eq_false_2 (s' ≠ s')) in E2s
    by (intros Hn; apply Hn; reflexivity).
  assert (E2z' : zeroIndexPage h2 = z').
  { rewrite E2z. case_bool_decide; [lia | reflexivity]. }
  clear E2z.
  (* third render *)
  set (h3 := commit k h2).
  destruct (commit_quiet h2 _ E2seen) as (E3s & E3p & E3z & E3pp & E3seen).
  { cbn [deps_of dep_urlPage key_p prefix k]. rewrite E2s, E2p.
    case_bool_decide; [right | left; reflexivity].
    rewrite (pull_page pfx _ (JS.toString (z' + 1))) by apply Hfk.
    rewrite Number_toString.
    destruct (decide (z' + 1 ≠ z' + 1)) as [Hne | _]; [| reflexivity].
    exfalso. apply Hne. reflexivity. }
  { left. cbn [deps_of dep_urlPerPage key_perPage prefix k]. rewrite E2s.
    case_bool_decide; [rewrite HfkS |]; reflexivity. }
  fold h3 in E3s, E3p, E3z, E3pp, E3seen.
  cbn [deps_of dep_page dep_zeroIndexPage dep_pageSize] in E3s, E3p, E3z.
  rewrite E1p', E1z, E1pp, E2p, E2z', E2pp in *.
  rewrite ?(bool_decide_eq_false_2 (z' + 1 ≠ z' + 1)) in E3s, E3z
    by (intros Hn; apply Hn; reflexivity).
  rewrite ?(bool_decide_eq_false_2 (z' ≠ z')) in E3p
    by (intros Hn; apply Hn; reflexivity).
  rewrite ?(bool_decide_eq_false_2 (s' ≠ s')) in E3s
    by (intros Hn; apply Hn; reflexivity).
  cbv beta in E3s.
  change (renders k 3 h0) with h3. cbv zeta.
  split.
  { apply (settled_iff pfx). rewrite E3seen. f_equal. symmetry.
    apply deps_of_ext; congruence. }
  assert (Hpage_url : search h3 !! fk ≫= JS.Number = Some (z' + 1)
                      /\ (z' ≠ zeroIndexPage h ->
                          search h3 !! fk = Some (JS.toString (z' + 1)))).
  { rewrite E3s, E2s. case_bool_decide as Hp.
    - rewrite Hfk. cbn [mbind option_bind]. rewrite Number_toString. auto.
    - assert (page h = z' + 1) by lia.
      rewrite E1s. split.
      + case_bool_decide; rewrite ?HSfk, Hu; congruence.
      + intros Hne. lia. }
  assert (Hsize_url : s' ≠ perPage h -> search h3 !! fkS = Some (JS.toString s')).
  { intros Hne. rewrite E3s, E2s.
    assert (Hs1 : search h1 !! fkS = Some (JS.toString s')).
    { rewrite E1s. rewrite bool_decide_eq_true_2 by congruence. apply HSk. }
    case_bool_decide; rewrite ?HfkS; exact Hs1. }
  unfold consistent, url_page, url_perPage. cbn [key_p key_perPage prefix k].
  rewrite E3z, E3p, E3pp.
  destruct Hpage_url as [Hnum Hstr].
  repeat split; try assumption; try lia.
Qed.
End PaginationEvents.

(** X18. A pagination event of the grid engine on a reflecting table with
    rows, from a settled state whose sides agree: after the handler and
    three renders the state is settled again, the pagination state handed
    to the engine is the one the engine asked for, the page cell that is
    mirrored to the URL is the engine's page index plus two, and a changed
    page size is written to the URL. *)
Theorem pagination_event_settles {RowItem Num : Type}
    (props : @Table.TableProps RowItem Num) (h : Table.Hooks)
    (updater : Table.Pagination -> Table.Pagination) :
  let k := Table.keys_of (Table.reflectInURL props) in
  Table.key_p k <> "" ->
  default [] (Table.data props) <> [] ->
  Table.settled k h -> Table.consistent k h ->
  let requested := updater (Table.state_pagination h) in
  let h' :=
    Table.renders k 3
      (Table.dispatch (Table.onPaginationChange props h updater) h) in
  Table.settled k h' /\ Table.consistent k h'
  /\ Table.state_pagination h' = requested
  /\ Table.page h' = Table.pageIndex requested + 2
  /\ Table.url_page k h' ≫= JS.Number = Some (Table.pageIndex requested + 2)
  /\ (Table.pageSize requested <> Table.perPage h ->
      Table.url_perPage k h' = Some (JS.toString (Table.pageSize requested))).
Proof.
  intros k Hkey Hrows Hsettled Hconsistent requested h'.
  assert (Hempty : Table.data_is_empty props = false).
  { destruct (Table.data_is_empty props) eqn:Hempty; [| reflexivity].
    apply data_is_empty_iff in Hempty. contradiction. }
  assert (Hcalls :
    Table.onPaginationChange props h updater
    = [Table.SetZeroIndexPage (fun _ => Table.pageIndex requested + 1);
       Table.SetPageSize (Table.pageSize requested)]).
  { unfold Table.onPaginationChange. rewrite Hempty. reflexivity. }
  subst h'. rewrite Hcalls. clear Hcalls.
  subst k. revert Hsettled Hconsistent.
  rewrite (keys_of_reflecting _ Hkey).
  set (pfx := Table.prefix (Table.keys_of (Table.reflectInURL props))).
  intros Hsettled Hconsistent.
  destruct (pagination_event_converges pfx h
              (Table.pageIndex requested + 1) (Table.pageSize requested)
              Hsettled Hconsistent)
    as (Hs & Hc & Hz & Hpp & Hp & Hsize & _).
  split; [exact Hs |]. split; [exact Hc |].
  split.
  { unfold Table.state_pagination. rewrite Hz, Hpp.
    destruct requested as [index size]. cbn [Table.pageIndex Table.pageSize].
    f_equal. lia. }
  split; [rewrite Hp; lia |].
  split; [| exact Hsize].
  destruct Hc as [_ Hurl]. rewrite Hurl, Hp. f_equal. lia.
Qed.

Lemma pagination_event_settles_witness :
  let k := Table.keys_of (Table.ReflectPrefix "x") in
  let h :=
    Table.renders k 2
      (Table.mount Table.reflecting_example Table.plain_env ∅) in
  let nextPage := fun p : Table.Pagination =>
    {| Table.pageIndex := Table.pageIndex p + 1; Table.pageSize := 25 |} in
  let h' :=
    Table.renders k 3
      (Table.dispatch
         (Table.onPaginationChange Table.reflecting_example h nextPage) h) in
  Table.state_pagination h' = {| Table.pageIndex := 1; Table.pageSize := 25 |}
  /\ Table.page h' = 3
  /\ Table.url_perPage k h' = Some "25".
Proof.
  intros k h nextPage h'.
  destruct (pagination_event_settles Table.reflecting_example h nextPage)
    as (_ & _ & Hstate & Hpage & _ & Hsize).
  - discriminate.
  - discriminate.
  - vm_compute. reflexivity.
  - vm_compute. split; reflexivity.
  - split; [exact Hstate |]. split; [exact Hpage |].
    apply Hsize. vm_compute. discriminate.
Defined.

(** X19. A table that does not reflect its pagination starts on the page
    that [initialPage] names, counted from one: after mount and after any
    number of renders the pagination state handed to the grid engine has
    the page index [initialPage - 1] (0 when the prop is omitted) and the
    default page size, whatever the URL holds. *)
Theorem mount_without_reflection {RowItem Num : Type}
    (props : @Table.TableProps RowItem Num) (env : Table.Env)
    (search0 : gmap string string) (n : nat) :
  Table.reflectInURL props = Table.ReflectUndefined
  \/ Table.reflectInURL props = Table.ReflectBool false ->
  let k := Table.keys_of (Table.reflectInURL props) in
  Table.state_pagination (Table.renders k n (Table.mount props env search0))
  = {| Table.pageIndex := default 1 (Table.initialPage props) - 1;
       Table.pageSize := Table.defaultRowsPerPage props env |}.
Proof.
  intros Hr k.
  assert (Hp : Table.key_p k = "") by (subst k; destruct Hr as [-> | ->]; reflexivity).
  assert (Hs : Table.key_perPage k = "")
    by (subst k; destruct Hr as [-> | ->]; reflexivity).
  assert (Hinv :
    Table.page (Table.renders k n (Table.mount props env search0))
    = default 1 (Table.initialPage props) + 1
    /\ Table.zeroIndexPage (Table.renders k n (Table.mount props env search0))
       = default 1 (Table.initialPage props)
    /\ Table.perPage (Table.renders k n (Table.mount props env search0))
       = Table.defaultRowsPerPage props env).
  { induction n as [| n IH].
    - unfold Table.renders, Table.mount, Table.usePageURLState_init.
      fold k. rewrite Hp, Hs.
      cbn. repeat split; lia.
    - destruct IH as (IHp & IHz & IHs).
      rewrite renders_S.
      destruct (commit_noreflect k Hp Hs
                  (Table.renders k n (Table.mount props env search0)))
        as (_ & -> & ->).
      rewrite commit_zeroIndexPage, IHp, IHz, IHs.
      split; [destruct (Table.changed _ _ _); [lia | reflexivity] |].
      split; [destruct (Table.changed _ _ _); [lia | reflexivity] |].
      reflexivity. }
  destruct Hinv as (_ & Hz & Hsize).
  unfold Table.state_pagination. rewrite Hz, Hsize. reflexivity.
Qed.

Lemma mount_without_reflection_witness :
  Table.state_pagination
    (Table.renders (Table.keys_of Table.ReflectUndefined) 4
       (Table.mount Table.layout_example Table.plain_env {[ "p" := "7" ]}))
  = {| Table.pageIndex := 0; Table.pageSize := 15 |}.
Proof.
  apply (mount_without_reflection Table.layout_example Table.plain_env
           {[ "p" := "7" ]} 4).
  left. reflexivity.
Defined.

Lemma no_reflection_leaves_url_alone_witness :
  let k := Table.keys_of Table.ReflectUndefined in
  let h := Table.mount Table.layout_example Table.plain_env {[ "p" := "7" ]} in
  Table.search (Table.renders k 3 h) = {[ "p" := "7" ]}
  /\ Table.zeroIndexPage (Table.renders k 3 (Table.navigate "p" "9" h))
     = Table.zeroIndexPage (Table.renders k 3 h).
Proof.
  intros k h.
  destruct (no_reflection_leaves_url_alone Table.ReflectUndefined
              (or_introl eq_refl) h 3) as [Hsearch Hcells].
  split; [exact Hsearch |].
  destruct (Hcells "p" "9") as (_ & Hzero & _). exact Hzero.
Defined.

(** ** Memoised body cells *)

Lemma strict_eq_diag (v : Table.CellValue) :
  Table.strict_eq v v
  = match v with
    | Table.VNumber n => negb (PrimFloat.is_nan n)
    | _ => true
    end.
Proof.
  destruct v as [| | b | n | s | ref]; cbn [Table.strict_eq]; try reflexivity.
  - destruct b; reflexivity.
  - unfold JS.strict_eq_number, PrimFloat.is_nan.
    destruct (PrimFloat.eqb n n); reflexivity.
  - apply String.eqb_refl.
  - apply Pos.eqb_refl.
Qed.

(** X20. The comparison that decides whether a body cell is rendered again
    reads the value of the cell, never the column it sits in, except to
    ask whether both cells are in the row-selection column. It holds of a
    cell with itself exactly when the value is not [NaN]; cells with
    [===] values in different columns compare equal as soon as one of the
    columns is not the row-selection column; so it is not transitive: two
    row-selection cells whose [isRowSelected] differ both compare equal to
    a third cell of another column. *)
Theorem MemoCell_propsAreEqual_relation :
  (forall a,
     Table.MemoCell_propsAreEqual a a = true
     <-> forall n, Table.cell_value a = Table.VNumber n ->
                   PrimFloat.is_nan n = false)
  /\ (forall a b,
        Table.strict_eq (Table.cell_value a) (Table.cell_value b) = true ->
        Table.cell_column_id a <> "mrt-row-select"
        \/ Table.cell_column_id b <> "mrt-row-select" ->
        Table.MemoCell_propsAreEqual a b = true)
  /\ (forall a b c,
        Table.cell_column_id a = "mrt-row-select" ->
        Table.cell_column_id b <> "mrt-row-select" ->
        Table.cell_column_id c = "mrt-row-select" ->
        Table.strict_eq (Table.cell_value a) (Table.cell_value b) = true ->
        Table.strict_eq (Table.cell_value b) (Table.cell_value c) = true ->
        Table.strict_eq (Table.cell_value a) (Table.cell_value c) = true ->
        Table.MemoCell_propsAreEqual a b = true
        /\ Table.MemoCell_propsAreEqual b c = true
        /\ (Table.MemoCell_propsAreEqual a c = true
            <-> Table.cell_isRowSelected a = Table.cell_isRowSelected c)).
Proof.
  assert (Hother : forall a b,
            Table.strict_eq (Table.cell_value a) (Table.cell_value b) = true ->
            Table.cell_column_id a <> "mrt-row-select"
            \/ Table.cell_column_id b <> "mrt-row-select" ->
            Table.MemoCell_propsAreEqual a b = true).
  { intros a b Hvalue Hcolumn. unfold Table.MemoCell_propsAreEqual.
    rewrite Hvalue. cbn [andb].
    destruct (String.eqb_spec (Table.cell_column_id a) "mrt-row-select") as [Ha | _];
      [| reflexivity].
    destruct (String.eqb_spec (Table.cell_column_id b) "mrt-row-select") as [Hb | _];
      [| reflexivity].
    destruct Hcolumn as [Hno | Hno]; contradiction. }
  split; [| split; [exact Hother |]].
  - intros a. unfold Table.MemoCell_propsAreEqual.
    rewrite strict_eq_diag.
    assert (Hsel : (if String.eqb (Table.cell_column_id a) "mrt-row-select"
                       && String.eqb (Table.cell_column_id a) "mrt-row-select"
                    then Bool.eqb (Table.cell_isRowSelected a)
                           (Table.cell_isRowSelected a)
                    else true) = true).
    { destruct (_ && _); [apply Bool.eqb_reflx | reflexivity]. }
    rewrite Hsel, andb_true_r.
    destruct (Table.cell_value a) as [| | b | n | s | ref].
    1-3, 5-6: split; [intros _ n Hn; discriminate Hn | reflexivity].
    split.
    + intros Hnan m Hm. injection Hm as <-.
      destruct (PrimFloat.is_nan n); [discriminate Hnan | reflexivity].
    + intros Hnan. rewrite (Hnan n eq_refl). reflexivity.
  - intros a b c Ha Hb Hc Hab Hbc Hac.
    split; [apply Hother; [exact Hab | right; exact Hb] |].
    split; [apply Hother; [exact Hbc | left; exact Hb] |].
    unfold Table.MemoCell_propsAreEqual.
    rewrite Hac, Ha, Hc. cbn [andb String.eqb].
    change (Bool.eqb (Table.cell_isRowSelected a) (Table.cell_isRowSelected c) = true
            <-> Table.cell_isRowSelected a = Table.cell_isRowSelected c).
    apply Bool.eqb_true_iff.
Qed.

(** ** Runs of the registration dialog *)

Section Runs.
Import DynamicClusters.
Variable atob : string -> Result string.
Variable yaml_load : string -> Result JsValue.

(** The host calls of one submission, by the mode and the validation. *)
Lemma handleSubmit_calls (st : State) :
  (handleSubmit atob yaml_load st).2
  = if isDynamicClusterEnabled st
    then match isValidKubeconfig atob yaml_load (kubeconfig st) with
         | Some _ => []
         | None => [SetCluster (ByKubeconfig (kubeconfig st))]
         end
    else [SetCluster (ByNameAndServer (name st) (server st))].
Proof.
  unfold handleSubmit. cbn [setError isDynamicClusterEnabled kubeconfig].
  destruct (isDynamicClusterEnabled st); [| reflexivity].
  rewrite isValidKubeconfig_truthy.
  destruct (isValidKubeconfig atob yaml_load (kubeconfig st)); reflexivity.
Qed.

(** Only the settled configuration request writes the mode cell. *)
Lemma step_mode (e : Event) (st : State) :
  isDynamicClusterEnabled (step atob yaml_load e st).1
  = match e with
    | ConfigSettled (Some flag) => flag
    | _ => isDynamicClusterEnabled st
    end.
Proof.
  destruct e as [[flag |] | | | text | text | text | | request [message |]];
    try reflexivity.
  - cbn [step]. unfold handleSubmit.
    cbn [setError isDynamicClusterEnabled kubeconfig].
    destruct (isDynamicClusterEnabled st) eqn:Hflag; [| exact Hflag].
    destruct (JS.truthy_string _); exact Hflag.
  - destruct request; reflexivity.
Qed.

Lemma setCluster_settled_calls (request : ClusterRequest)
    (outcome : option string) (st : State) :
  (setCluster_settled request outcome st).2
  = match outcome with None => [Reload] | Some _ => [] end.
Proof. destruct outcome, request; reflexivity. Qed.

End Runs.

(** X21. Whatever happens to the dialog, in whatever order and from
    whatever state, every kubeconfig handed to [Headlamp.setCluster] has
    passed the validation at the time of the submission: it decodes and
    parses to a document carrying both markers. *)
Theorem run_sends_validated_kubeconfig
    (atob : string -> DynamicClusters.Result string)
    (yaml_load : string -> DynamicClusters.Result DynamicClusters.JsValue)
    (events : list DynamicClusters.Event) (st : DynamicClusters.State) :
  Forall
    (fun call =>
       forall text,
         call = DynamicClusters.SetCluster (DynamicClusters.ByKubeconfig text) ->
         exists decoded document,
           atob text = DynamicClusters.Return decoded
           /\ yaml_load decoded = DynamicClusters.Return document
           /\ DynamicClusters.has_marker_fields document)
    (DynamicClusters.run atob yaml_load events st).2.
Proof.
  revert st. induction events as [| e rest IH]; intros st.
  - constructor.
  - cbn [DynamicClusters.run snd]. apply Forall_app. split; [| apply IH].
    destruct e as [response | | | text | text | text | | request outcome];
      cbn [DynamicClusters.step snd]; try constructor.
    + rewrite handleSubmit_calls.
      destruct (DynamicClusters.isDynamicClusterEnabled st).
      * destruct (DynamicClusters.isValidKubeconfig atob yaml_load
                    (DynamicClusters.kubeconfig st)) eqn:Hvalid;
          constructor; [| constructor].
        intros text Hcall. injection Hcall as <-.
        exact (isValidKubeconfig_None_inv atob yaml_load _ Hvalid).
      * constructor; [| constructor]. intros text Hcall. discriminate Hcall.
    + rewrite setCluster_settled_calls.
      destruct outcome; constructor; [| constructor].
      intros text Hcall. discriminate Hcall.
Qed.

(** X22. Only a configuration response with [isDynamicClusterEnabled:
    true] switches the dialog to kubeconfig mode: in a run without one,
    from a state in the other mode (as the initial one), the mode stays
    off, the form shows the name and server fields, no kubeconfig is ever
    handed to the host, and neither the decoder nor the parser is
    consulted. *)
Theorem run_without_dynamic_mode
    (atob atob' : string -> DynamicClusters.Result string)
    (yaml_load yaml_load' :
       string -> DynamicClusters.Result DynamicClusters.JsValue)
    (events : list DynamicClusters.Event) (st : DynamicClusters.State) :
  DynamicClusters.isDynamicClusterEnabled st = false ->
  Forall (fun e => e <> DynamicClusters.ConfigSettled (Some true)) events ->
  let result := DynamicClusters.run atob yaml_load events st in
  DynamicClusters.isDynamicClusterEnabled result.1 = false
  /\ Forall
       (fun call =>
          forall text,
            call <> DynamicClusters.SetCluster (DynamicClusters.ByKubeconfig text))
       result.2
  /\ DynamicClusters.text_fields (DynamicClusters.render result.1)
     = [("Name", DynamicClusters.name result.1);
        ("Server", DynamicClusters.server result.1)]
  /\ DynamicClusters.run atob' yaml_load' events st = result.
Proof.
  intros Hmode Hevents. revert st Hmode.
  induction Hevents as [| e rest He _ IH]; intros st Hmode result.
  - subst result. cbn [DynamicClusters.run fst snd].
    split; [exact Hmode |]. split; [constructor |].
    split; [| reflexivity].
    unfold DynamicClusters.render. cbn [DynamicClusters.text_fields].
    rewrite Hmode. reflexivity.
  - assert (Hstep : DynamicClusters.step atob' yaml_load' e st
                    = DynamicClusters.step atob yaml_load e st).
    { destruct e; try reflexivity.
      cbn [DynamicClusters.step]. unfold DynamicClusters.handleSubmit.
      cbn [DynamicClusters.setError DynamicClusters.isDynamicClusterEnabled].
      rewrite Hmode. reflexivity. }
    assert (Hmode' : DynamicClusters.isDynamicClusterEnabled
                       (DynamicClusters.step atob yaml_load e st).1 = false).
    { rewrite step_mode. destruct e as [[[|] |] | | | | | | |]; try exact Hmode.
      - exfalso. apply He. reflexivity.
      - reflexivity. }
    destruct (IH _ Hmode') as (Hfinal & Hcalls & Hfields & Hsame).
    subst result. cbn [DynamicClusters.run fst snd].
    split; [exact Hfinal |].
    split; [apply Forall_app; split; [| exact Hcalls] |].
    + destruct e as [response | | | text | text | text | | request outcome];
        cbn [DynamicClusters.step snd]; try constructor.
      * rewrite handleSubmit_calls, Hmode.
        constructor; [| constructor]. intros text Hcall. discriminate Hcall.
      * rewrite setCluster_settled_calls.
        destruct outcome; constructor; [| constructor].
        intros text Hcall. discriminate Hcall.
    + split; [exact Hfields |].
      rewrite Hstep. cbv zeta in Hsame. rewrite Hsame. reflexivity.
Qed.

Lemma run_without_dynamic_mode_witness :
  let atob : string -> DynamicClusters.Result string :=
    fun _ => DynamicClusters.Throw "unused" in
  let yaml_load : string -> DynamicClusters.Result DynamicClusters.JsValue :=
    fun _ => DynamicClusters.Throw "unused" in
  let events :=
    [DynamicClusters.ConfigSettled None;
     DynamicClusters.ClickNewCluster;
     DynamicClusters.ChangeKubeconfig "a3ViZQ==";
     DynamicClusters.ChangeName "kind";
     DynamicClusters.ClickSubmit;
     DynamicClusters.ConfigSettled (Some false)] in
  Forall (fun e => e <> DynamicClusters.ConfigSettled (Some true)) events
  /\ Forall
       (fun call =>
          forall text,
            call <> DynamicClusters.SetCluster (DynamicClusters.ByKubeconfig text))
       (DynamicClusters.run atob yaml_load events DynamicClusters.initial).2.
Proof.
  intros atob yaml_load events.
  assert (Hevents :
            Forall (fun e => e <> DynamicClusters.ConfigSettled (Some true)) events).
  { repeat constructor; discriminate. }
  split; [exact Hevents |].
  destruct (run_without_dynamic_mode atob atob yaml_load yaml_load events
              DynamicClusters.initial eq_refl Hevents)
    as (_ & Hcalls & _).
  exact Hcalls.
Defined.
